(** * aider_script.py: the orchestration loop of [AiderOrchestrator]

    A shallow embedding of [src/aider_script.py].  The orchestrator is
    sequential Python glue around three external collaborators: the file
    system, the git repository and the aider engine ([InputOutput],
    [Model], [Coder]).  The embedding threads an explicit state (the
    orchestrator object, the outside world, the record of what the process
    printed and which engine calls it made) through a small
    state-and-exception monad.  The engine is opaque to the script, so it is
    a parameter of the development: an arbitrary function from a call and a
    world to an optional exception and a new world. *)

From stdpp Require Import base option list strings gmap fin_maps pretty.
From Stdlib Require Import ZArith Lia.


Set Warnings "-register-all".

(** ** Python values that the script handles *)

(** What [yaml.safe_load] can hand back.  Mapping keys are strings, as
    the option names of [.aider.conf.yml] are. *)
Inductive yaml : Type :=
  | YNull
  | YBool (b : bool)
  | YInt (z : Z)
  | YStr (s : string)
  | YSeq (l : list yaml)
  | YMap (m : gmap string yaml).

(** Python truthiness, as used by [user_config or {}]. *)
Definition truthy (v : yaml) : bool :=
  match v with
  | YNull => false
  | YBool b => b
  | YInt z => negb (Z.eqb z 0)
  | YStr s => negb (String.eqb s "")
  | YSeq l => negb (Nat.eqb (length l) 0)
  | YMap m => negb (Nat.eqb (size m) 0)
  end.

(** Exceptions.  [SystemExit] is what [sys.exit] raises; it derives from
    [BaseException] only, so [except Exception] does not catch it.  Every
    other constructor is a subclass of [Exception]. *)
Inductive exn : Type :=
  | SystemExit (code : Z)
  | FileNotFoundError (path : string)
  | YAMLError (msg : string)
  | KeyError (key : string)
  | TypeError (msg : string)
  | OtherError (cls : string) (msg : string).

Definition is_Exception (e : exn) : bool :=
  match e with
  | SystemExit _ => false
  | _ => true
  end.

(** [str(e)], as interpolated by the f-string of the loop's handler. *)
Definition exn_str (e : exn) : string :=
  match e with
  | SystemExit code => pretty code
  | FileNotFoundError path =>
      "[Errno 2] No such file or directory: '" +:+ path +:+ "'"
  | YAMLError msg => msg
  | KeyError key => "'" +:+ key +:+ "'"
  | TypeError msg => msg
  | OtherError _ msg => msg
  end.

Inductive result (A : Type) : Type :=
  | Ret (a : A)
  | Raise (e : exn).
Arguments Ret {A} a.
Arguments Raise {A} e.

(** [needle in haystack] on Python strings. *)
Fixpoint str_contains (needle haystack : string) : bool :=
  String.prefix needle haystack
  || match haystack with
     | EmptyString => false
     | String _ rest => str_contains needle rest
     end.

(** [if not text] on an [Optional[str]]: [None] and the empty string are
    both falsy. *)
Definition str_truthy (text : option string) : bool :=
  match text with
  | None => false
  | Some t => negb (String.eqb t "")
  end.

(** [str(Path(dir) / name)] for a normalised absolute [dir]. *)
Definition path_join (dir name : string) : string :=
  if String.eqb dir "/" then "/" +:+ name else dir +:+ "/" +:+ name.

(** ** The orchestrator object *)

Record AiderOrchestrator : Type := mkOrchestrator {
  requirements_file : string;
  continuation_prompt_file : string;
  commit_prompt_file : string;
  max_iterations : Z;
  stop_token : string;
  previous_hash : string;
  base_config : gmap string yaml;
  read_files : list string
}.

Definition set_previous_hash (h : string) (o : AiderOrchestrator)
  : AiderOrchestrator :=
  {| requirements_file := requirements_file o;
     continuation_prompt_file := continuation_prompt_file o;
     commit_prompt_file := commit_prompt_file o;
     max_iterations := max_iterations o;
     stop_token := stop_token o;
     previous_hash := h;
     base_config := base_config o;
     read_files := read_files o |}.

Definition set_commit_prompt_file (p : string) (o : AiderOrchestrator)
  : AiderOrchestrator :=
  {| requirements_file := requirements_file o;
     continuation_prompt_file := continuation_prompt_file o;
     commit_prompt_file := p;
     max_iterations := max_iterations o;
     stop_token := stop_token o;
     previous_hash := previous_hash o;
     base_config := base_config o;
     read_files := read_files o |}.

(** The dictionary literal of [__init__] (lines 33-41). *)
Definition default_base_config : gmap string yaml :=
  <["analytics_disable" := YBool true]>
  (<["auto_commits" := YBool true]>
  (<["auto_lint" := YBool true]>
  (<["auto_test" := YBool false]>
  (<["check_update" := YBool false]>
  (<["stream" := YBool false]>
  (<["yes_always" := YBool true]> ∅)))))).

(** The list literal of [__init__] (lines 44-50). *)
Definition default_read_files : list string :=
  [ "CONVENTIONS.md";
    "packages/prompts/CONVENTIONS.md";
    "packages/prompts/README.md";
    "README.md";
    "TESTING.md" ].

(** ** The aider engine, seen from the script *)

Record InputOutput : Type := mkInputOutput {
  io_pretty : bool;
  io_yes : bool;
  input_history_file : string;
  chat_history_file : string
}.

(** The keyword arguments of [Coder.create]; a session is the object built
    from them. *)
Record Coder : Type := mkCoder {
  main_model : string;
  io : InputOutput;
  fnames : list string;
  read_only_fnames : list string;
  auto_commits : yaml;
  auto_lint : yaml;
  auto_test : yaml;
  stream : yaml;
  chat_mode : string
}.

Inductive ext_call : Type :=
  | InputOutput_init (args : InputOutput)
  | Model_init (name : string)
  | Coder_create (args : Coder)
  | Coder_run (coder : Coder) (with_message : string).

(** What an observer of the process sees: lines on standard output and the
    calls into the engine, each with the exception it raised, if any. *)
Inductive event : Type :=
  | Stdout (line : string)
  | Called (c : ext_call) (raised : option exn).

(** ** The outside world *)

Inductive fsnode : Type :=
  | File (text : string)
  | Unreadable (e : exn).

(** [fs] maps a path to what [open(path).read()] finds there; [user_conf]
    is [~/.aider.conf.yml]: absent, or present with the outcome of
    [yaml.safe_load] on it; [head] is [repo.head.commit.hexsha]; [ext] is
    whatever else the engine depends on (the model, the network). *)
Record World (Ext : Type) : Type := mkWorld {
  fs : gmap string fsnode;
  user_conf : option (result yaml);
  head : result string;
  working_tree_dir : string;
  ext : Ext
}.
Arguments mkWorld {Ext}.
Arguments fs {Ext}.
Arguments user_conf {Ext}.
Arguments head {Ext}.
Arguments working_tree_dir {Ext}.
Arguments ext {Ext}.

Record State (Ext : Type) : Type := mkState {
  self : AiderOrchestrator;
  world : World Ext;
  trace : list event
}.
Arguments mkState {Ext}.
Arguments self {Ext}.
Arguments world {Ext}.
Arguments trace {Ext}.

(** Process exit status: 0 when [main] returns, the argument of
    [sys.exit], and 1 for a traceback of an uncaught exception. *)
Definition exit_status (r : result unit) : Z :=
  match r with
  | Ret _ => 0
  | Raise (SystemExit code) => code
  | Raise _ => 1
  end.

(** [type(v).__name__], for the message of the [TypeError] that
    [{**d, **v}] raises on a [v] that is not a mapping. *)
Definition type_name (v : yaml) : string :=
  match v with
  | YNull => "NoneType"
  | YBool _ => "bool"
  | YInt _ => "int"
  | YStr _ => "str"
  | YSeq _ => "list"
  | YMap _ => "dict"
  end.

(** ** The script *)

(** The f-strings of the script. *)
Definition starting_line (iteration : Z) : string :=
  "Starting iteration " +:+ pretty iteration.

Definition error_line (iteration : Z) (e : exn) : string :=
  "Error during iteration " +:+ pretty iteration +:+ ": " +:+ exn_str e.

Definition warning_line (file_path : string) : string :=
  "Warning: Prompt file not found: " +:+ file_path.

Section Orchestrator.
Context {Ext : Type}.

(** The engine: what a call does to the world, and whether it raises. *)
Variable engine : ext_call → World Ext → option exn * World Ext.

(** A computation reads and updates the state and either returns a value
    or raises; the state at the point of the raise is kept. *)
Definition M (A : Type) : Type := State Ext → result A * State Ext.

#[local] Instance M_ret : MRet M := λ A a s, (Ret a, s).
#[local] Instance M_bind : MBind M := λ A B f m s,
  match m s with
  | (Ret a, s') => f a s'
  | (Raise e, s') => (Raise e, s')
  end.

Definition raise {A : Type} (e : exn) : M A := λ s, (Raise e, s).

(** [try: body / except <catches> as e: handler e] *)
Definition try_except {A : Type} (body : M A) (catches : exn → bool)
    (handler : exn → M A) : M A := λ s,
  match body s with
  | (Ret a, s') => (Ret a, s')
  | (Raise e, s') => if catches e then handler e s' else (Raise e, s')
  end.

Definition get_self : M AiderOrchestrator := λ s, (Ret (self s), s).

Definition put_previous_hash (h : string) : M unit := λ s,
  (Ret tt, mkState (set_previous_hash h (self s)) (world s) (trace s)).

Definition print (line : string) : M unit := λ s,
  (Ret tt, mkState (self s) (world s) (trace s ++ [Stdout line])).

Definition sys_exit {A : Type} (code : Z) : M A := raise (SystemExit code).

(** A call into the engine: the engine moves the world, the call is
    recorded, and its exception, if any, is raised in the script. *)
Definition call (c : ext_call) : M unit := λ s,
  let '(raised, w) := engine c (world s) in
  (match raised with None => Ret tt | Some e => Raise e end,
   mkState (self s) w (trace s ++ [Called c raised])).

(** [Path(p).exists()] *)
Definition path_exists (p : string) : M bool := λ s,
  (Ret (match fs (world s) !! p with Some _ => true | None => false end), s).

(** [with open(p) as f: f.read()] *)
Definition open_read (p : string) : M string := λ s,
  (match fs (world s) !! p with
   | Some (File text) => Ret text
   | Some (Unreadable e) => Raise e
   | None => Raise (FileNotFoundError p)
   end, s).

(** [self.repo.head.commit.hexsha] *)
Definition repo_head_commit_hexsha : M string := λ s, (head (world s), s).

(** [config[key]] *)
Definition getitem (config : gmap string yaml) (key : string) : M yaml :=
  match config !! key with
  | Some v => mret v
  | None => raise (KeyError key)
  end.

(** [AiderOrchestrator.__init__] (lines 16-51), run in world [w]. *)
Definition init (requirements_file continuation_prompt_file
    commit_prompt_file : string) (max_iterations : Z) (stop_token : string)
    (w : World Ext) : result AiderOrchestrator :=
  match head w with
  | Raise e => Raise e
  | Ret hexsha =>
      Ret {| requirements_file := requirements_file;
             continuation_prompt_file := continuation_prompt_file;
             commit_prompt_file := commit_prompt_file;
             max_iterations := max_iterations;
             stop_token := stop_token;
             previous_hash := hexsha;
             base_config := default_base_config;
             read_files :=
               map (path_join (working_tree_dir w)) default_read_files |}
  end.

(** [config_path.exists()] for [~/.aider.conf.yml] *)
Definition config_path_exists : M bool := λ s,
  (Ret (match user_conf (world s) with Some _ => true | None => false end),
   s).

(** [with open(config_path) as f: yaml.safe_load(f)] *)
Definition safe_load_config : M yaml := λ s,
  (match user_conf (world s) with
   | Some loaded => loaded
   | None => Raise (FileNotFoundError "~/.aider.conf.yml")
   end, s).

(** [load_config] (lines 53-60).  [{**base, **user}] is the union in
    which the right operand wins. *)
Definition load_config : M (gmap string yaml) :=
  self ← get_self;
  present ← config_path_exists;
  if present : bool then
    user_config ← safe_load_config;
    let overrides := if truthy user_config then user_config else YMap ∅ in
    match overrides with
    | YMap m => mret (m ∪ base_config self)
    | v => raise (TypeError
             ("'" +:+ type_name v +:+ "' object is not a mapping"))
    end
  else mret (base_config self).

(** [is_complete] (lines 62-76) *)
Definition is_complete : M bool :=
  self ← get_self;
  let history_file := ".aider.chat.history.md" in
  present ← path_exists history_file;
  stopped ← (if present : bool then
               text ← open_read history_file;
               mret (str_contains (stop_token self) text)
             else mret false);
  if stopped : bool then mret true
  else
    current_hash ← repo_head_commit_hexsha;
    if String.eqb current_hash (previous_hash self) then
      print "Not modified. Finalizing session...";;
      mret true
    else
      put_previous_hash current_hash;;
      mret false.

(** [read_prompt_file] (lines 78-85) *)
Definition read_prompt_file (file_path : string) : M (option string) :=
  try_except
    (text ← open_read file_path; mret (Some text))
    (λ e, match e with FileNotFoundError _ => true | _ => false end)
    (λ _, print (warning_line file_path);;
          mret None).

(** [create_coder] (lines 87-112) *)
Definition create_coder (chat_mode : string) : M Coder :=
  self ← get_self;
  config ← load_config;
  let io := {| io_pretty := false;
               io_yes := true;
               input_history_file := ".aider.input.history";
               chat_history_file := ".aider.chat.history.md" |} in
  call (InputOutput_init io);;
  let model := "gpt-4-turbo" in
  call (Model_init model);;
  auto_commits ← getitem config "auto_commits";
  auto_lint ← getitem config "auto_lint";
  auto_test ← getitem config "auto_test";
  stream ← getitem config "stream";
  let coder := {| main_model := model;
                  io := io;
                  fnames := [];
                  read_only_fnames := read_files self;
                  auto_commits := auto_commits;
                  auto_lint := auto_lint;
                  auto_test := auto_test;
                  stream := stream;
                  chat_mode := chat_mode |} in
  call (Coder_create coder);;
  mret coder.

(** [coder.run(with_message)] *)
Definition coder_run (coder : Coder) (with_message : string) : M unit :=
  call (Coder_run coder with_message).

(** The text of a prompt that has passed [if not prompt: sys.exit(1)]. *)
Definition prompt_text (prompt : option string) : string :=
  default "" prompt.

(** [run], lines 117-127: the architecture phase and the reading of the
    continuation prompt. *)
Definition run_setup : M string :=
  self ← get_self;
  requirements ← read_prompt_file (requirements_file self);
  if negb (str_truthy requirements) then sys_exit 1
  else
    architect_coder ← create_coder "architect";
    coder_run architect_coder (prompt_text requirements);;
    continuation_prompt ← read_prompt_file (continuation_prompt_file self);
    if negb (str_truthy continuation_prompt) then sys_exit 1
    else mret (prompt_text continuation_prompt).

(** How one pass through the body of the [while] leaves it. *)
Inductive flow : Type :=
  | Break
  | Continue (iteration : Z).

(** [run], lines 131-142: the body of the [while], entered with the
    current value of [iteration]. *)
Definition loop_body (continuation_prompt : string) (iteration : Z)
    : M flow :=
  complete ← is_complete;
  if complete : bool then mret Break
  else
    let iteration := (iteration + 1)%Z in
    print (starting_line iteration);;
    try_except
      (coder ← create_coder "code";
       coder_run coder continuation_prompt)
      is_Exception
      (λ e, print (error_line iteration e);; sys_exit 1);;
    mret (Continue iteration).

(** [run], lines 130-142: the [while].  [fuel] bounds the number of
    passes; [None] means the bound was reached with the guard still
    true.  [while_loop_total] shows that [run] never gets there. *)
Fixpoint while_loop (fuel : nat) (continuation_prompt : string)
    (iteration : Z) (s : State Ext) : option (result unit * State Ext) :=
  if (iteration <? max_iterations (self s))%Z then
    match fuel with
    | O => None
    | S fuel' =>
        match loop_body continuation_prompt iteration s with
        | (Raise e, s') => Some (Raise e, s')
        | (Ret Break, s') => Some (Ret tt, s')
        | (Ret (Continue iteration'), s') =>
            while_loop fuel' continuation_prompt iteration' s'
        end
    end
  else Some (Ret tt, s).

(** [run], lines 129-142 *)
Definition run_loop (continuation_prompt : string) (s : State Ext)
    : option (result unit * State Ext) :=
  while_loop (Z.to_nat (max_iterations (self s))) continuation_prompt 0 s.

(** [run] (lines 114-142) *)
Definition run (s : State Ext) : option (result unit * State Ext) :=
  match run_setup s with
  | (Raise e, s') => Some (Raise e, s')
  | (Ret continuation_prompt, s') => run_loop continuation_prompt s'
  end.

End Orchestrator.

(** ** Observations on a record of events *)

(** [Coder.create] returned a session in mode [mode]. *)
Definition session_created (mode : string) (ev : event) : bool :=
  match ev with
  | Called (Coder_create args) None => String.eqb (chat_mode args) mode
  | _ => false
  end.

(** [run] was called on a session in mode [mode] (a delegation). *)
Definition session_run (mode : string) (ev : event) : bool :=
  match ev with
  | Called (Coder_run coder _) _ => String.eqb (chat_mode coder) mode
  | _ => false
  end.

Fixpoint count (p : event → bool) (evs : list event) : nat :=
  match evs with
  | [] => 0
  | ev :: evs' => (if p ev then 1 else 0) + count p evs'
  end.

Definition sessions_created (mode : string) (evs : list event) : nat :=
  count (session_created mode) evs.

Definition sessions_run (mode : string) (evs : list event) : nat :=
  count (session_run mode) evs.

(** The state after [print(line)]. *)
Definition printed {Ext : Type} (line : string) (s : State Ext) : State Ext :=
  mkState (self s) (world s) (trace s ++ [Stdout line]).

(** The state in which [self.previous_hash] has been assigned. *)
Definition with_previous_hash {Ext : Type} (h : string) (s : State Ext)
  : State Ext :=
  mkState (set_previous_hash h (self s)) (world s) (trace s).

(** The state of an orchestrator built with another [commit_prompt_file]. *)
Definition with_commit_prompt_file {Ext : Type} (p : string) (s : State Ext)
  : State Ext :=
  mkState (set_commit_prompt_file p (self s)) (world s) (trace s).

(** The world in which the file at [path] holds [node], or is gone. *)
Definition with_file {Ext : Type} (path : string) (node : option fsnode)
    (s : State Ext) : State Ext :=
  mkState (self s)
    (mkWorld (match node with
              | Some n => <[path := n]> (fs (world s))
              | None => delete path (fs (world s))
              end)
       (user_conf (world s)) (head (world s)) (working_tree_dir (world s))
       (ext (world s)))
    (trace s).

(** The chat-history file shows no stop token: it is absent, or its text
    does not contain the token. *)
Definition no_stop_token {Ext : Type} (s : State Ext) : Prop :=
  match fs (world s) !! ".aider.chat.history.md" with
  | None => True
  | Some (File text) => str_contains (stop_token (self s)) text = false
  | Some (Unreadable _) => False
  end.

(** The head commit is readable and is not the stored previous one. *)
Definition head_changed {Ext : Type} (s : State Ext) : Prop :=
  ∃ h, head (world s) = Ret h ∧ h ≠ previous_hash (self s).

Section Scenarios.
Context {Ext : Type}.
Variable engine : ext_call → World Ext → option exn * World Ext.

(** Iteration number [iteration] of the loop, entered in state [s] once
    the completion check has returned false: the progress line is
    printed, the "code" session is created, and its run on [prompt] ends
    with [r] in state [s']. *)
Definition delegates (prompt : string) (iteration : Z) (s : State Ext)
    (r : result unit) (s' : State Ext) : Prop :=
  ∃ coder s2,
    create_coder engine "code" (printed (starting_line iteration) s)
      = (Ret coder, s2) ∧
    coder_run engine coder prompt s2 = (r, s').

(** Iteration number [iteration] runs from [s] to [s'] with nothing to
    stop it: at the check the history shows no stop token and the head
    commit has moved, and the delegation returns. *)
Definition iteration_completes (prompt : string) (iteration : Z)
    (s s' : State Ext) : Prop :=
  no_stop_token s ∧
  ∃ h, head (world s) = Ret h ∧ h ≠ previous_hash (self s) ∧
       delegates prompt iteration (with_previous_hash h s) (Ret tt) s'.
End Scenarios.

(** [f] applied to the state that a computation ends in. *)
Definition on_state {Ext : Type} {A : Type} (f : State Ext → State Ext)
    (rs : result A * State Ext) : result A * State Ext :=
  (fst rs, f (snd rs)).

(** ** Concrete worlds and engines *)

Module Examples.

(** What one call of [coder.run] does in a scripted engine. *)
Record effect : Type := mkEffect {
  raises : option exn;
  commit : option string;
  history : option string;
  conf : option (result yaml)
}.

(** An engine that follows a script: its [n]-th call of [coder.run]
    makes the commit, writes the chat history and rewrites the override
    file as [script n] says, and then raises or returns as it says; the
    constructors of the engine do nothing.  The hidden state counts the
    calls of [coder.run]. *)
Definition scripted (script : nat → effect) (c : ext_call) (w : World nat)
  : option exn * World nat :=
  match c with
  | Coder_run _ _ =>
      let n := S (ext w) in
      let eff := script n in
      (raises eff,
       mkWorld
         (match history eff with
          | Some text => <[".aider.chat.history.md" := File text]> (fs w)
          | None => fs w
          end)
         (match conf eff with
          | Some loaded => Some loaded
          | None => user_conf w
          end)
         (match commit eff with
          | Some hexsha => Ret hexsha
          | None => head w
          end)
         (working_tree_dir w)
         n)
  | _ => (None, w)
  end.

(** Every run makes a new commit. *)
Definition committing (n : nat) : effect :=
  mkEffect None (Some ("commit-" +:+ pretty n)) None None.

(** As [committing], and the run numbered [failing] raises. *)
Definition failing_at (failing : nat) (n : nat) : effect :=
  mkEffect
    (if Nat.eqb n failing
     then Some (OtherError "RuntimeError" "model unavailable")
     else None)
    (Some ("commit-" +:+ pretty n)) None None.

(** The first run (the architect's) commits and leaves the stop token in
    the chat history. *)
Definition finishing (n : nat) : effect :=
  mkEffect None (Some ("commit-" +:+ pretty n))
    (Some "# aider chat. Plan written, all tasks DONE.") None.

(** The first run (the architect's) commits and leaves the override file
    unparsable. *)
Definition corrupting (n : nat) : effect :=
  mkEffect None (Some ("commit-" +:+ pretty n)) None
    (Some (Raise (YAMLError "mapping values are not allowed here"))).

Definition files (requirements continuation : option string)
  : gmap string fsnode :=
  let with_requirements :=
    match requirements with
    | Some text => <["requirements.txt" := File text]> ∅
    | None => ∅
    end in
  match continuation with
  | Some text => <["continuation.txt" := File text]> with_requirements
  | None => with_requirements
  end.

Definition world_of (files : gmap string fsnode)
    (user_conf : option (result yaml)) : World nat :=
  mkWorld files user_conf (Ret "commit-0") "/repo" 0%nat.

Definition base_world : World nat :=
  world_of (files (Some "Build a parser.") (Some "Continue.")) None.

(** The orchestrator that [main] builds in [base_world] with
    [MAX_ITERATIONS] set to [limit] and the other variables unset. *)
Definition orchestrator (limit : Z) : AiderOrchestrator :=
  {| requirements_file := "requirements.txt";
     continuation_prompt_file := "continuation.txt";
     commit_prompt_file := "commit_prompt.txt";
     max_iterations := limit;
     stop_token := "DONE";
     previous_hash := "commit-0";
     base_config := default_base_config;
     read_files := map (path_join "/repo") default_read_files |}.

Definition start (limit : Z) (w : World nat) : State nat :=
  mkState (orchestrator limit) w [].

(** The session that [create_coder] builds for [orchestrator] when the
    override file is absent. *)
Definition session (mode : string) : Coder :=
  {| main_model := "gpt-4-turbo";
     io := {| io_pretty := false;
              io_yes := true;
              input_history_file := ".aider.input.history";
              chat_history_file := ".aider.chat.history.md" |};
     fnames := [];
     read_only_fnames := map (path_join "/repo") default_read_files;
     auto_commits := YBool true;
     auto_lint := YBool true;
     auto_test := YBool false;
     stream := YBool false;
     chat_mode := mode |}.

(** The state in which a computation ends. *)
Definition after {A : Type} (m : State nat → result A * State nat)
    (s : State nat) : State nat :=
  snd (m s).

Definition overrides : gmap string yaml :=
  <["auto_test" := YBool true]> (<["model" := YStr "gpt-4o"]> ∅).

End Examples.

(** [coder.run] was called with an empty message. *)
Definition empty_delegation (ev : event) : bool :=
  match ev with
  | Called (Coder_run _ with_message) _ => String.eqb with_message ""
  | _ => false
  end.

(** ** Further worlds and engines *)

Module Cases.

(** The first run (the architect's) commits; no later run does. *)
Definition stalling (n : nat) : Examples.effect :=
  Examples.mkEffect None
    (if Nat.eqb n 1 then Some "commit-1" else None) None None.

(** No run ever commits. *)
Definition idle (n : nat) : Examples.effect :=
  Examples.mkEffect None None None None.


(** An engine in which [Coder.create] refuses sessions in mode [mode]; its
    runs commit as those of [Examples.committing] do. *)
Definition refusing (mode : string) (c : ext_call) (w : World nat)
  : option exn * World nat :=
  match c with
  | Coder_create args =>
      (if String.eqb (chat_mode args) mode
       then Some (OtherError "ValueError" "unknown edit format")
       else None,
       w)
  | _ => Examples.scripted Examples.committing c w
  end.

(** [Examples.base_world] with the node [node] at [path]. *)
Definition world_with (path : string) (node : fsnode) : World nat :=
  mkWorld (<[path := node]> (fs Examples.base_world)) None
    (Ret "commit-0") "/repo" 0%nat.

Definition permission_denied : exn :=
  OtherError "PermissionError" "[Errno 13] Permission denied".

(** The result and the final state of a run that ends. *)
Definition result_of (outcome : option (result unit * State nat))
  : result unit :=
  from_option fst (Ret tt) outcome.

Definition state_of (s : State nat)
    (outcome : option (result unit * State nat)) : State nat :=
  from_option snd s outcome.

End Cases.

(** ** Tactics *)

(** Unfolds the monad and the primitive operations, and nothing else. *)
Ltac unfold_monad :=
  cbv beta iota zeta delta
    [mbind mret M_bind M_ret raise try_except get_self put_previous_hash
     print sys_exit call path_exists open_read repo_head_commit_hexsha
     getitem config_path_exists safe_load_config];
  cbn [self world trace fs user_conf head working_tree_dir ext fst snd].

Ltac unfold_monad_in H :=
  cbv beta iota zeta delta
    [mbind mret M_bind M_ret raise try_except get_self put_previous_hash
     print sys_exit call path_exists open_read repo_head_commit_hexsha
     getitem config_path_exists safe_load_config] in H;
  cbn [self world trace fs user_conf head working_tree_dir ext fst snd] in H.

(** Rewrites with [H] wherever unfolding exposes its left side. *)
Ltac script_rw H := unfold_monad; repeat (rewrite H; unfold_monad).

(** Case analysis on the next engine call or dictionary lookup in the goal. *)
Ltac step_engine engine :=
  match goal with
  | |- context [engine ?c ?w] =>
      destruct (engine c w) as [[?|] ?] eqn:?; unfold_monad
  end.

Ltac step_getitem :=
  match goal with
  | |- context [@lookup string yaml (gmap string yaml) _ ?k ?m] =>
      destruct (@lookup string yaml (gmap string yaml) _ k m) eqn:?;
      unfold_monad
  end.

(** Case analysis on the innermost scrutinee in the goal. *)
Ltac case_scrutinee :=
  match goal with
  | |- context [match ?x with _ => _ end] =>
      lazymatch x with
      | context [match _ with _ => _ end] => fail
      | _ => destruct x eqn:?
      end
  end.

Ltac commute_by_cases :=
  unfold on_state; unfold_monad;
  cbn [with_commit_prompt_file set_commit_prompt_file self world trace
       requirements_file continuation_prompt_file max_iterations stop_token
       previous_hash base_config read_files fst snd];
  repeat (first [done | congruence | case_scrutinee]; unfold_monad;
          cbn [with_commit_prompt_file set_commit_prompt_file self world
               trace requirements_file continuation_prompt_file
               max_iterations stop_token previous_hash base_config
               read_files fst snd]).

(** Moves [with_commit_prompt_file] outwards, past [printed] and the
    projections. *)
Ltac push_commit_prompt_file :=
  cbn [on_state fst snd with_commit_prompt_file set_commit_prompt_file self
       requirements_file continuation_prompt_file max_iterations];
  repeat match goal with
  | |- context [printed ?l (with_commit_prompt_file ?p ?s)] =>
      change (printed l (with_commit_prompt_file p s))
        with (with_commit_prompt_file p (printed l s))
  end.

(** Discharges [delegates] and [iteration_completes] on concrete states
    by running the script. *)
Ltac run_delegation engine :=
  match goal with
  | |- delegates _ _ ?iteration ?s _ _ =>
      exists (Examples.session "code"),
        (Examples.after (create_coder engine "code")
           (printed (starting_line iteration) s));
      split; vm_compute; reflexivity
  end.

Ltac run_iteration engine h :=
  split; [vm_compute; exact I|];
  exists h; split; [vm_compute; reflexivity|];
  split; [vm_compute; discriminate|];
  run_delegation engine.

(** Turns the recorded engine calls into steps of an invariant [keeps] of
    the engine. *)
Ltac chain_worlds engine keeps :=
  repeat match goal with
  | H : engine ?c ?w = (_, ?w') |- _ =>
      let X := fresh "Hstep" in
      pose proof (keeps c w) as X; rewrite H in X; cbn [snd] in X;
      clear H
  end.

(** * Properties *)

(** ** Strings *)

Lemma prefix_spec (p t : string) :
  String.prefix p t = true ↔ ∃ rest, t = p +:+ rest.
Proof.
  revert t. induction p as [|c p IH]; intros [|d t]; cbn.
  - split; [intros _; exists ""; reflexivity | done].
  - split; [intros _; eexists; reflexivity | done].
  - split; [done | intros [rest Hrest]; discriminate].
  - destruct (Ascii.ascii_dec c d) as [->|Hne].
    + rewrite IH. split; intros [rest Hrest].
      * exists rest. rewrite Hrest. reflexivity.
      * exists rest. cbn in Hrest. by injection Hrest.
    + split; [done | intros [rest Hrest]; injection Hrest as Hcd _; congruence].
Qed.

(** [str_contains] is the substring test. *)
Lemma str_contains_spec (needle haystack : string) :
  str_contains needle haystack = true ↔
  ∃ before after, haystack = before +:+ needle +:+ after.
Proof.
  induction haystack as [|c h IH].
  - change (str_contains needle "") with (String.prefix needle "" || false).
    rewrite orb_false_r, prefix_spec. split.
    + intros [rest Hrest]. by exists "", rest.
    + intros (before & after & H).
      destruct before; [by exists after | discriminate].
  - change (str_contains needle (String c h))
      with (String.prefix needle (String c h) || str_contains needle h).
    rewrite orb_true_iff, IH, prefix_spec. split.
    + intros [[rest Hrest] | (before & after & Hh)].
      * by exists "", rest.
      * exists (String c before), after. rewrite Hh. reflexivity.
    + intros (before & after & H). destruct before as [|d before].
      * left. by exists after.
      * right. injection H as -> ->. by exists before, after.
Qed.

Lemma count_app (p : event → bool) (evs1 evs2 : list event) :
  count p (evs1 ++ evs2) = (count p evs1 + count p evs2)%nat.
Proof. induction evs1 as [|ev evs1 IH]; cbn; [done | rewrite IH; lia]. Qed.

Section Properties.
Context {Ext : Type}.
Variable engine : ext_call → World Ext → option exn * World Ext.

Implicit Types (s : State Ext) (e : exn).

(** *** [is_complete] *)

Lemma is_complete_stop_token s text :
  fs (world s) !! ".aider.chat.history.md" = Some (File text) →
  str_contains (stop_token (self s)) text = true →
  is_complete s = (Ret true, s).
Proof.
  intros Hfile Htoken. unfold is_complete. script_rw Hfile.
  by rewrite Htoken.
Qed.

Lemma is_complete_no_token s :
  no_stop_token s →
  is_complete s =
    match head (world s) with
    | Raise e => (Raise e, s)
    | Ret h =>
        if String.eqb h (previous_hash (self s))
        then (Ret true, printed "Not modified. Finalizing session..." s)
        else (Ret false, with_previous_hash h s)
    end.
Proof.
  unfold no_stop_token, is_complete. intros Hno.
  destruct (fs (world s) !! ".aider.chat.history.md") as [[text|e]|] eqn:Hfile;
    [script_rw Hfile; rewrite Hno | done | script_rw Hfile];
    unfold_monad;
    (destruct (head (world s)) as [h|e]; [|done]);
    by destruct (String.eqb h (previous_hash (self s))).
Qed.

(** [is_complete] reads the world, and of the orchestrator it changes
    [previous_hash] only; all it may do is print. *)
Lemma is_complete_frame s r s' :
  is_complete s = (r, s') →
  world s' = world s ∧
  self s' = set_previous_hash (previous_hash (self s')) (self s) ∧
  ∃ evs, trace s' = trace s ++ evs ∧
         ∀ p, (∀ line, p (Stdout line) = false) → count p evs = 0%nat.
Proof.
  assert (Hself : self s = set_previous_hash (previous_hash (self s)) (self s))
    by by destruct (self s).
  assert (Hnil : trace s = trace s ++ []) by by rewrite app_nil_r.
  unfold is_complete.
  destruct (fs (world s) !! ".aider.chat.history.md") as [[text|e]|] eqn:Hfile;
    script_rw Hfile.
  2: { intros [= <- <-]. eauto 10. }
  1: destruct (str_contains (stop_token (self s)) text);
     [intros [= <- <-]; by eauto 10|].
  all: unfold_monad; destruct (head (world s)) as [h|e];
    [|intros [= <- <-]; by eauto 10];
    destruct (String.eqb h (previous_hash (self s)));
    intros [= <- <-]; cbn [self world trace];
    (split; [done|]); (split; [done|]).
  all: first [ by exists [] | eexists; split; [reflexivity|];
               intros p Hp; cbn; by rewrite Hp ].
Qed.

(** *** [load_config] *)

Lemma load_config_absent s :
  user_conf (world s) = None →
  load_config s = (Ret (base_config (self s)), s).
Proof. intros Hconf. unfold load_config. by script_rw Hconf. Qed.

Lemma load_config_raise s e :
  user_conf (world s) = Some (Raise e) →
  load_config s = (Raise e, s).
Proof. intros Hconf. unfold load_config. by script_rw Hconf. Qed.

Lemma load_config_mapping s (m : gmap string yaml) :
  user_conf (world s) = Some (Ret (YMap m)) →
  load_config s = (Ret (m ∪ base_config (self s)), s).
Proof.
  intros Hconf. unfold load_config. script_rw Hconf.
  destruct (truthy (YMap m)) eqn:Htruthy; [done|].
  cbn in Htruthy. apply negb_false_iff, Nat.eqb_eq in Htruthy.
  apply map_size_empty_inv in Htruthy. by subst m.
Qed.

(** [load_config] only reads. *)
Lemma load_config_pure s r s' : load_config s = (r, s') → s' = s.
Proof.
  unfold load_config.
  destruct (user_conf (world s)) as [[v|e]|] eqn:Hconf; script_rw Hconf;
    [|by intros [= _ <-] ..].
  by destruct (truthy v), v; intros [= _ <-].
Qed.

(** *** [read_prompt_file] *)

Lemma read_prompt_file_absent s path :
  fs (world s) !! path = None →
  read_prompt_file path s =
    (Ret None, printed (warning_line path) s).
Proof. intros Hfile. unfold read_prompt_file. by script_rw Hfile. Qed.

Lemma read_prompt_file_text s path text :
  fs (world s) !! path = Some (File text) →
  read_prompt_file path s = (Ret (Some text), s).
Proof. intros Hfile. unfold read_prompt_file. by script_rw Hfile. Qed.

(** *** [create_coder] and [coder.run] *)

Lemma create_coder_config_raise s mode e :
  user_conf (world s) = Some (Raise e) →
  create_coder engine mode s = (Raise e, s).
Proof.
  intros Hconf. unfold create_coder. unfold_monad.
  by rewrite (load_config_raise s e Hconf).
Qed.

(** A session that [create_coder] returns is in the requested mode, and
    the calls that built it are the last three events. *)
Lemma create_coder_ok s mode coder s' :
  create_coder engine mode s = (Ret coder, s') →
  chat_mode coder = mode ∧ self s' = self s ∧
  trace s' = trace s ++
    [Called (InputOutput_init (io coder)) None;
     Called (Model_init (main_model coder)) None;
     Called (Coder_create coder) None].
Proof.
  unfold create_coder. unfold_monad.
  destruct (load_config s) as [[config|e] s1] eqn:Hload;
    apply load_config_pure in Hload; subst s1; [|done].
  repeat (first [step_engine engine | step_getitem]); try done.
  intros [= <- <-]; cbn. by rewrite <- !app_assoc.
Qed.

(** When [create_coder] raises, no session was created. *)
Lemma create_coder_raise s mode e s' :
  create_coder engine mode s = (Raise e, s') →
  self s' = self s ∧
  ∃ evs, trace s' = trace s ++ evs ∧
         ∀ m, sessions_created m evs = 0%nat ∧ sessions_run m evs = 0%nat.
Proof.
  unfold create_coder. unfold_monad.
  destruct (load_config s) as [[config|e0] s1] eqn:Hload;
    apply load_config_pure in Hload; subst s1.
  2: { intros [= <- <-]. split; [done|]. exists []. by rewrite app_nil_r. }
  repeat (first [step_engine engine | step_getitem]); try done;
    intros [= <- <-]; cbn [self trace]; (split; [done|]);
    rewrite <- ?app_assoc; eexists; (split; [reflexivity|]); done.
Qed.

Lemma coder_run_spec s coder with_message r s' :
  coder_run engine coder with_message s = (r, s') →
  self s' = self s ∧
  ∃ raised, trace s' = trace s ++ [Called (Coder_run coder with_message) raised] ∧
            r = match raised with None => Ret tt | Some e => Raise e end.
Proof.
  unfold coder_run. unfold_monad.
  destruct (engine _ _) as [raised w]. intros [= <- <-]. eauto.
Qed.

(** *** The body of the loop *)

Lemma loop_body_check s prompt iteration :
  loop_body engine prompt iteration s =
    match is_complete s with
    | (Raise e, s1) => (Raise e, s1)
    | (Ret true, s1) => (Ret Break, s1)
    | (Ret false, s1) =>
        match create_coder engine "code"
                (printed (starting_line (iteration + 1)) s1) with
        | (Ret coder, s2) =>
            match coder_run engine coder prompt s2 with
            | (Ret _, s3) => (Ret (Continue (iteration + 1)), s3)
            | (Raise e, s3) =>
                if is_Exception e
                then (Raise (SystemExit 1),
                      printed (error_line (iteration + 1) e) s3)
                else (Raise e, s3)
            end
        | (Raise e, s2) =>
            if is_Exception e
            then (Raise (SystemExit 1),
                  printed (error_line (iteration + 1) e) s2)
            else (Raise e, s2)
        end
    end.
Proof.
  unfold loop_body. unfold_monad.
  destruct (is_complete s) as [[[|]|e] s1]; [done| |done].
  unfold_monad. fold (printed (starting_line (iteration + 1)) s1).
  destruct (create_coder engine "code" _) as [[coder|e] s2].
  - destruct (coder_run engine coder prompt s2) as [[[]|e] s3]; [done|].
    by destruct (is_Exception e).
  - by destruct (is_Exception e).
Qed.

Lemma loop_body_continue s prompt iteration s1 s' :
  is_complete s = (Ret false, s1) →
  delegates engine prompt (iteration + 1) s1 (Ret tt) s' →
  loop_body engine prompt iteration s = (Ret (Continue (iteration + 1)), s').
Proof.
  intros Hcheck (coder & s2 & Hcreate & Hrun).
  by rewrite loop_body_check, Hcheck, Hcreate, Hrun.
Qed.

Lemma loop_body_delegation_raises s prompt iteration s1 e s' :
  is_complete s = (Ret false, s1) →
  delegates engine prompt (iteration + 1) s1 (Raise e) s' →
  is_Exception e = true →
  loop_body engine prompt iteration s =
    (Raise (SystemExit 1), printed (error_line (iteration + 1) e) s').
Proof.
  intros Hcheck (coder & s2 & Hcreate & Hrun) Hexc.
  by rewrite loop_body_check, Hcheck, Hcreate, Hrun, Hexc.
Qed.

Lemma loop_body_config_raises s prompt iteration s1 e :
  is_complete s = (Ret false, s1) →
  user_conf (world s1) = Some (Raise e) →
  is_Exception e = true →
  loop_body engine prompt iteration s =
    (Raise (SystemExit 1),
     printed (error_line (iteration + 1) e)
       (printed (starting_line (iteration + 1)) s1)).
Proof.
  intros Hcheck Hconf Hexc.
  rewrite loop_body_check, Hcheck.
  by rewrite (create_coder_config_raise
                (printed (starting_line (iteration + 1)) s1) "code" e Hconf),
             Hexc.
Qed.

Lemma iteration_completes_check s prompt iteration s' :
  iteration_completes engine prompt iteration s s' →
  ∃ h, is_complete s = (Ret false, with_previous_hash h s) ∧
       delegates engine prompt iteration (with_previous_hash h s) (Ret tt) s'.
Proof.
  intros (Hno & h & Hhead & Hne & Hdel). exists h. split; [|done].
  rewrite (is_complete_no_token s Hno), Hhead.
  by apply String.eqb_neq in Hne as ->.
Qed.

(** What one pass through the body leaves behind: the orchestrator
    changes in [previous_hash] at most, the counter goes up by one, and
    at most one "code" session is created and at most one is run; a pass
    that continues has created and run exactly one, a pass that breaks
    none. *)
Lemma loop_body_frame s prompt iteration r s' :
  loop_body engine prompt iteration s = (r, s') →
  self s' = set_previous_hash (previous_hash (self s')) (self s) ∧
  ∃ evs, trace s' = trace s ++ evs ∧
    match r with
    | Ret (Continue iteration') =>
        iteration' = (iteration + 1)%Z ∧
        sessions_created "code" evs = 1%nat ∧
        sessions_run "code" evs = 1%nat
    | Ret Break =>
        sessions_created "code" evs = 0%nat ∧
        sessions_run "code" evs = 0%nat
    | Raise _ =>
        (sessions_created "code" evs ≤ 1)%nat ∧
        (sessions_run "code" evs ≤ 1)%nat
    end.
Proof.
  rewrite loop_body_check.
  destruct (is_complete s) as [rc s1] eqn:Hcheck.
  apply is_complete_frame in Hcheck as (_ & Hself1 & evs1 & Htrace1 & Hcount1).
  assert (Hc1 : sessions_created "code" evs1 = 0%nat) by by apply Hcount1.
  assert (Hr1 : sessions_run "code" evs1 = 0%nat) by by apply Hcount1.
  destruct rc as [[|]|e].
  { intros [= <- <-]. split; [done|]. by exists evs1. }
  2: { intros [= <- <-]. split; [done|]. exists evs1. rewrite Hc1, Hr1.
       split; [done | lia]. }
  destruct (create_coder engine "code" _) as [[coder|e] s2] eqn:Hcreate.
  - apply create_coder_ok in Hcreate as (Hmode & Hself2 & Htrace2).
    cbn [printed self trace] in Hself2, Htrace2.
    destruct (coder_run engine coder prompt s2) as [rr s3] eqn:Hrun.
    apply coder_run_spec in Hrun as (Hself3 & raised & Htrace3 & ->).
    assert (Hs3 : self s3 = set_previous_hash (previous_hash (self s3)) (self s)).
    { rewrite Hself3, Hself2. exact Hself1. }
    destruct raised as [e|]; [destruct (is_Exception e)|];
      intros [= <- <-]; cbn [printed self trace];
      (split; [done|]); eexists;
      rewrite Htrace3, Htrace2, Htrace1, <- !app_assoc;
      (split; [reflexivity|]);
      unfold sessions_created, sessions_run in *;
      rewrite !count_app, Hc1, Hr1;
      cbn [count session_created session_run]; rewrite ?Hmode; cbn; lia.
  - apply create_coder_raise in Hcreate as (Hself2 & evs2 & Htrace2 & Hcount2).
    cbn [printed self trace] in Hself2, Htrace2.
    destruct (Hcount2 "code") as [Hc2 Hr2].
    assert (Hs2 : self s2 = set_previous_hash (previous_hash (self s2)) (self s)).
    { rewrite Hself2. exact Hself1. }
    destruct (is_Exception e); intros [= <- <-]; cbn [printed self trace].
    all: split; [done|]; eexists; rewrite Htrace2, Htrace1, <- !app_assoc;
      (split; [reflexivity|]);
      unfold sessions_created, sessions_run in *;
      rewrite !count_app, Hc1, Hr1, ?Hc2, ?Hr2; cbn; lia.
Qed.

(** *** The loop *)

Lemma max_iterations_set_previous_hash (o o' : AiderOrchestrator) h :
  o' = set_previous_hash h o → max_iterations o' = max_iterations o.
Proof. by intros ->. Qed.

Lemma while_loop_exit fuel prompt iteration s :
  (max_iterations (self s) ≤ iteration)%Z →
  while_loop engine fuel prompt iteration s = Some (Ret tt, s).
Proof.
  intros Hle. apply Z.ltb_ge in Hle. by destruct fuel; cbn; rewrite Hle.
Qed.

Lemma while_loop_step fuel prompt iteration s :
  (iteration < max_iterations (self s))%Z →
  while_loop engine (S fuel) prompt iteration s =
    match loop_body engine prompt iteration s with
    | (Raise e, s') => Some (Raise e, s')
    | (Ret Break, s') => Some (Ret tt, s')
    | (Ret (Continue iteration'), s') =>
        while_loop engine fuel prompt iteration' s'
    end.
Proof. intros Hlt. apply Z.ltb_lt in Hlt. cbn. by rewrite Hlt. Qed.

(** The loop ends: fuel for [max_iterations - iteration] passes is
    enough. *)
Lemma while_loop_total fuel prompt iteration s :
  (max_iterations (self s) - iteration ≤ Z.of_nat fuel)%Z →
  ∃ r s', while_loop engine fuel prompt iteration s = Some (r, s').
Proof.
  revert iteration s. induction fuel as [|fuel IH]; intros iteration s Hfuel.
  - rewrite while_loop_exit by lia. eauto.
  - destruct (Z.lt_ge_cases iteration (max_iterations (self s))) as [Hlt|Hge];
      [|rewrite while_loop_exit by lia; eauto].
    rewrite while_loop_step by done.
    destruct (loop_body engine prompt iteration s) as [[[|iteration']|e] s']
      eqn:Hbody; [by eauto | | by eauto].
    apply loop_body_frame in Hbody as (Hself & evs & _ & -> & _).
    apply max_iterations_set_previous_hash in Hself.
    apply IH. lia.
Qed.

(** From counter value [iteration] on, the loop creates and runs at most
    [max_iterations - iteration] "code" sessions. *)
Lemma while_loop_bound fuel prompt iteration s r s' :
  while_loop engine fuel prompt iteration s = Some (r, s') →
  ∃ evs, trace s' = trace s ++ evs ∧
    (Z.of_nat (sessions_created "code" evs)
       ≤ Z.max 0 (max_iterations (self s) - iteration))%Z ∧
    (Z.of_nat (sessions_run "code" evs)
       ≤ Z.max 0 (max_iterations (self s) - iteration))%Z.
Proof.
  revert iteration s.
  induction fuel as [|fuel IH]; intros iteration s;
    (destruct (Z.lt_ge_cases iteration (max_iterations (self s))) as [Hlt|Hge];
     [|rewrite while_loop_exit by lia; intros [= <- <-];
       exists []; rewrite app_nil_r; (split; [done|]);
       unfold sessions_created, sessions_run; cbn [count]; lia]).
  - cbn. apply Z.ltb_lt in Hlt. by rewrite Hlt.
  - rewrite while_loop_step by done.
    destruct (loop_body engine prompt iteration s) as [rb s1] eqn:Hbody.
    apply loop_body_frame in Hbody as (Hself & evs1 & Htrace1 & Hcount).
    apply max_iterations_set_previous_hash in Hself.
    destruct rb as [[|iteration']|e].
    + intros [= <- <-]. exists evs1. split; [done|]. lia.
    + destruct Hcount as (-> & Hc & Hr). intros Hrest.
      apply IH in Hrest as (evs2 & Htrace2 & Hc2 & Hr2).
      exists (evs1 ++ evs2). rewrite Htrace2, Htrace1, <- app_assoc.
      split; [done|]. unfold sessions_created, sessions_run in *.
      rewrite !count_app. lia.
    + intros [= <- <-]. exists evs1. split; [done|]. lia.
Qed.

(** *** The architecture phase *)

Lemma read_prompt_file_frame s path r s' :
  read_prompt_file path s = (r, s') →
  self s' = self s ∧ world s' = world s ∧
  ∃ evs, trace s' = trace s ++ evs ∧
         ∀ p, (∀ line, p (Stdout line) = false) → count p evs = 0%nat.
Proof.
  unfold read_prompt_file.
  destruct (fs (world s) !! path) as [[text|e]|] eqn:Hfile; script_rw Hfile.
  2: destruct e.
  all: intros [= <- <-]; cbn [self world trace];
    (split; [done|]); (split; [done|]).
  all: first [ exists []; by rewrite app_nil_r
             | eexists; split; [reflexivity|];
               intros p Hp; cbn; by rewrite Hp ].
Qed.

Lemma run_setup_unfold s :
  run_setup engine s =
    match read_prompt_file (requirements_file (self s)) s with
    | (Raise e, s1) => (Raise e, s1)
    | (Ret requirements, s1) =>
        if negb (str_truthy requirements) then (Raise (SystemExit 1), s1)
        else
          match create_coder engine "architect" s1 with
          | (Raise e, s2) => (Raise e, s2)
          | (Ret architect_coder, s2) =>
              match coder_run engine architect_coder
                      (prompt_text requirements) s2 with
              | (Raise e, s3) => (Raise e, s3)
              | (Ret _, s3) =>
                  match read_prompt_file
                          (continuation_prompt_file (self s)) s3 with
                  | (Raise e, s4) => (Raise e, s4)
                  | (Ret continuation_prompt, s4) =>
                      if negb (str_truthy continuation_prompt)
                      then (Raise (SystemExit 1), s4)
                      else (Ret (prompt_text continuation_prompt), s4)
                  end
              end
          end
    end.
Proof.
  unfold run_setup. unfold_monad.
  destruct (read_prompt_file _ s) as [[requirements|e] s1]; [|done].
  destruct (negb (str_truthy requirements)); [done|]. unfold_monad.
  destruct (create_coder engine "architect" s1) as [[coder|e] s2]; [|done].
  destruct (coder_run engine coder _ s2) as [[[]|e] s3]; [|done].
  destruct (read_prompt_file _ s3) as [[continuation_prompt|e] s4]; [|done].
  by destruct (negb (str_truthy continuation_prompt)).
Qed.

(** The architecture phase leaves the orchestrator as it was, and
    creates and runs no "code" session. *)
Lemma run_setup_frame s r s' :
  run_setup engine s = (r, s') →
  self s' = self s ∧
  ∃ evs, trace s' = trace s ++ evs ∧
         sessions_created "code" evs = 0%nat ∧
         sessions_run "code" evs = 0%nat.
Proof.
  rewrite run_setup_unfold.
  destruct (read_prompt_file _ s) as [r1 s1] eqn:Hread1.
  apply read_prompt_file_frame in Hread1 as (Hself1 & _ & evs1 & Htrace1 & Hcount1).
  assert (Hc1 : sessions_created "code" evs1 = 0%nat) by by apply Hcount1.
  assert (Hr1 : sessions_run "code" evs1 = 0%nat) by by apply Hcount1.
  destruct r1 as [requirements|e]; [|by intros [= <- <-]; eauto].
  destruct (negb (str_truthy requirements)); [by intros [= <- <-]; eauto|].
  destruct (create_coder engine "architect" s1) as [[coder|e] s2] eqn:Hcreate.
  2: { apply create_coder_raise in Hcreate as (Hself2 & evs2 & Htrace2 & Hcount2).
       destruct (Hcount2 "code") as [Hc2 Hr2].
       intros [= <- <-]. split; [congruence|]. exists (evs1 ++ evs2).
       rewrite Htrace2, Htrace1, <- app_assoc. split; [done|].
       unfold sessions_created, sessions_run in *.
       rewrite !count_app. lia. }
  apply create_coder_ok in Hcreate as (Hmode & Hself2 & Htrace2).
  destruct (coder_run engine coder _ s2) as [rr s3] eqn:Hrun.
  apply coder_run_spec in Hrun as (Hself3 & raised & Htrace3 & ->).
  assert (Hpre : ∃ evs3, trace s3 = trace s ++ evs3 ∧
            sessions_created "code" evs3 = 0%nat ∧
            sessions_run "code" evs3 = 0%nat).
  { eexists. rewrite Htrace3, Htrace2, Htrace1, <- !app_assoc.
    split; [reflexivity|]. unfold sessions_created, sessions_run in *.
    rewrite !count_app, Hc1, Hr1.
    cbn [count session_created session_run]. rewrite Hmode. by cbn. }
  destruct Hpre as (evs3 & Htrace3' & Hc3 & Hr3).
  assert (Hself3' : self s3 = self s) by congruence.
  destruct raised as [e|]; [by intros [= <- <-]; eauto|].
  destruct (read_prompt_file _ s3) as [r4 s4] eqn:Hread2.
  apply read_prompt_file_frame in Hread2 as (Hself4 & _ & evs4 & Htrace4 & Hcount4).
  assert (Hc4 : sessions_created "code" evs4 = 0%nat) by by apply Hcount4.
  assert (Hr4 : sessions_run "code" evs4 = 0%nat) by by apply Hcount4.
  assert (Hpost : self s4 = self s ∧ ∃ evs, trace s4 = trace s ++ evs ∧
            sessions_created "code" evs = 0%nat ∧
            sessions_run "code" evs = 0%nat).
  { split; [congruence|]. exists (evs3 ++ evs4).
    rewrite Htrace4, Htrace3', <- app_assoc. split; [done|].
    unfold sessions_created, sessions_run in *. rewrite !count_app. lia. }
  destruct r4 as [continuation_prompt|e]; [|by intros [= <- <-]].
  by destruct (negb (str_truthy continuation_prompt)); intros [= <- <-].
Qed.

(** [run] always ends: with a return, or with an exception. *)
Lemma run_total s : ∃ r s', run engine s = Some (r, s').
Proof.
  unfold run, run_loop.
  destruct (run_setup engine s) as [[prompt|e] s1]; [|by eauto].
  apply while_loop_total. lia.
Qed.

(** ** The contract of the orchestrator *)

(** C2.  When the chat-history file exists and its text contains the stop
    token as a substring, [is_complete] returns true and leaves the state
    as it found it: [previous_hash] keeps its value and nothing is
    printed.  The statement holds for every head commit and every stored
    hash, including a head that cannot be read at all, so the commit
    comparison plays no part in the answer. *)
Theorem is_complete_stop_token_short_circuits s text :
  fs (world s) !! ".aider.chat.history.md" = Some (File text) →
  (∃ before after, text = before +:+ stop_token (self s) +:+ after) →
  is_complete s = (Ret true, s).
Proof.
  intros Hfile Hsub. apply (is_complete_stop_token s text Hfile).
  by apply str_contains_spec.
Qed.

(** C3.  When the chat-history file shows no stop token (it is absent,
    or its text does not contain the token) and the head commit is [h]:
    if [h] is the stored previous hash, [is_complete] returns true; if it
    differs, [is_complete] returns false and the stored previous hash
    becomes [h]. *)
Theorem is_complete_commit_comparison s h :
  no_stop_token s →
  head (world s) = Ret h →
  (h = previous_hash (self s) →
     is_complete s =
       (Ret true, printed "Not modified. Finalizing session..." s)) ∧
  (h ≠ previous_hash (self s) →
     is_complete s = (Ret false, with_previous_hash h s) ∧
     previous_hash (self (with_previous_hash h s)) = h).
Proof.
  intros Hno Hhead. rewrite (is_complete_no_token s Hno), Hhead. split.
  - intros ->. by rewrite String.eqb_refl.
  - intros Hne. by apply String.eqb_neq in Hne as ->.
Qed.

(** C4.  [load_config] with the override file absent ([overrides] is
    [None]) returns the built-in defaults; with the file present and
    holding the mapping [m], it returns a mapping that has the value of
    [m] at every key of [m], whatever that value is, and the default at
    every other key.  The state is not changed. *)
Theorem load_config_shallow_merge s (overrides : option (gmap string yaml)) :
  user_conf (world s) = (λ m, Ret (YMap m)) <$> overrides →
  ∃ config,
    load_config s = (Ret config, s) ∧
    match overrides with
    | None => config = base_config (self s)
    | Some m =>
        (∀ key value, m !! key = Some value → config !! key = Some value) ∧
        (∀ key, m !! key = None → config !! key = base_config (self s) !! key)
    end.
Proof.
  destruct overrides as [m|]; cbn; intros Hconf.
  - exists (m ∪ base_config (self s)).
    split; [by apply load_config_mapping|]. split.
    + intros key value Hkey. by apply lookup_union_Some_l.
    + intros key Hkey. by apply lookup_union_r.
  - exists (base_config (self s)). split; [by apply load_config_absent | done].
Qed.

(** C6.  When the requirements file does not exist, [read_prompt_file]
    prints the warning and returns [None], and [run] ends with
    [SystemExit(1)] in the state that the warning left: the process exits
    with status 1 and the engine has not been called. *)
Theorem missing_requirements_exits s :
  fs (world s) !! requirements_file (self s) = None →
  read_prompt_file (requirements_file (self s)) s =
    (Ret None, printed (warning_line (requirements_file (self s))) s) ∧
  run engine s =
    Some (Raise (SystemExit 1),
          printed (warning_line (requirements_file (self s))) s) ∧
  exit_status (Raise (SystemExit 1)) = 1%Z.
Proof.
  intros Hfile. split; [by apply read_prompt_file_absent|]. split; [|done].
  unfold run. rewrite run_setup_unfold.
  by rewrite (read_prompt_file_absent s _ Hfile).
Qed.

(** C7.  When the architecture phase hands over to the loop in state
    [s1], [max_iterations] is at least 1, and in [s1] the chat-history
    file exists and contains the stop token, [run] returns normally in
    that same state [s1]: the loop does nothing, and the whole run has
    created and run no "code" session. *)
Theorem stop_token_before_loop s prompt s1 text :
  run_setup engine s = (Ret prompt, s1) →
  (1 ≤ max_iterations (self s1))%Z →
  fs (world s1) !! ".aider.chat.history.md" = Some (File text) →
  (∃ before after, text = before +:+ stop_token (self s1) +:+ after) →
  run_loop engine prompt s1 = Some (Ret tt, s1) ∧
  run engine s = Some (Ret tt, s1) ∧
  exit_status (Ret tt) = 0%Z ∧
  ∃ evs, trace s1 = trace s ++ evs ∧
         sessions_created "code" evs = 0%nat ∧
         sessions_run "code" evs = 0%nat.
Proof.
  intros Hsetup Hmax Hfile Hsub.
  assert (Hloop : run_loop engine prompt s1 = Some (Ret tt, s1)).
  { unfold run_loop.
    destruct (Z.to_nat (max_iterations (self s1))) as [|fuel] eqn:Hfuel;
      [lia|].
    rewrite while_loop_step by lia. rewrite loop_body_check.
    apply str_contains_spec in Hsub.
    by rewrite (is_complete_stop_token s1 text Hfile Hsub). }
  split; [done|]. split; [unfold run; by rewrite Hsetup|]. split; [done|].
  by apply run_setup_frame in Hsetup as [_ ?].
Qed.

(** An iteration that completes is one pass of the loop: it creates and
    runs exactly one "code" session and keeps [max_iterations]. *)
Lemma iteration_completes_step fuel prompt iteration s s' :
  (iteration < max_iterations (self s))%Z →
  iteration_completes engine prompt (iteration + 1) s s' →
  while_loop engine (S fuel) prompt iteration s =
    while_loop engine fuel prompt (iteration + 1) s' ∧
  max_iterations (self s') = max_iterations (self s) ∧
  ∃ evs, trace s' = trace s ++ evs ∧
         sessions_created "code" evs = 1%nat ∧
         sessions_run "code" evs = 1%nat.
Proof.
  intros Hlt Hiter.
  apply iteration_completes_check in Hiter as (h & Hcheck & Hdel).
  pose proof (loop_body_continue s prompt iteration _ s' Hcheck Hdel) as Hbody.
  rewrite while_loop_step, Hbody by done. split; [done|].
  apply loop_body_frame in Hbody as (Hself & evs & Htrace & _ & Hc & Hr).
  apply max_iterations_set_previous_hash in Hself. eauto.
Qed.

Lemma check_false_step fuel prompt iteration s s1 s' :
  (iteration < max_iterations (self s))%Z →
  is_complete s = (Ret false, s1) →
  delegates engine prompt (iteration + 1) s1 (Ret tt) s' →
  while_loop engine (S fuel) prompt iteration s =
    while_loop engine fuel prompt (iteration + 1) s' ∧
  max_iterations (self s') = max_iterations (self s) ∧
  ∃ evs, trace s' = trace s ++ evs ∧
         sessions_created "code" evs = 1%nat ∧
         sessions_run "code" evs = 1%nat.
Proof.
  intros Hlt Hcheck Hdel.
  pose proof (loop_body_continue s prompt iteration _ s' Hcheck Hdel) as Hbody.
  rewrite while_loop_step, Hbody by done. split; [done|].
  apply loop_body_frame in Hbody as (Hself & evs & Htrace & _ & Hc & Hr).
  apply max_iterations_set_previous_hash in Hself. eauto.
Qed.

Lemma check_false_raise_step fuel prompt iteration s s1 e s' :
  (iteration < max_iterations (self s))%Z →
  is_complete s = (Ret false, s1) →
  delegates engine prompt (iteration + 1) s1 (Raise e) s' →
  is_Exception e = true →
  while_loop engine (S fuel) prompt iteration s =
    Some (Raise (SystemExit 1), printed (error_line (iteration + 1) e) s') ∧
  ∃ evs, trace s' = trace s ++ evs ∧
         sessions_created "code" evs = 1%nat ∧
         sessions_run "code" evs = 1%nat.
Proof.
  intros Hlt Hcheck (coder & s2 & Hcreate & Hrun) Hexc.
  rewrite while_loop_step, loop_body_check, Hcheck, Hcreate, Hrun, Hexc
    by done.
  split; [done|].
  apply is_complete_frame in Hcheck as (_ & _ & evs1 & Htrace1 & Hcount1).
  apply create_coder_ok in Hcreate as (Hmode & _ & Htrace2).
  apply coder_run_spec in Hrun as (_ & raised & Htrace3 & _).
  cbn [printed trace] in Htrace2. eexists.
  rewrite Htrace3, Htrace2, Htrace1, <- !app_assoc. split; [reflexivity|].
  unfold sessions_created, sessions_run.
  rewrite !count_app, !Hcount1 by done.
  cbn [count session_created session_run]. rewrite Hmode. by cbn.
Qed.

Lemma string_app_assoc (a b c : string) : (a +:+ b) +:+ c = a +:+ b +:+ c.
Proof.
  induction a as [|x a IH]; [done|].
  change (String x ((a +:+ b) +:+ c) = String x (a +:+ b +:+ c)).
  by rewrite IH.
Qed.

(** C1.  The loop creates and runs at most [max_iterations] "code"
    sessions, whatever the engine does.  With [max_iterations = 3], in a
    run of three iterations where at each check the history shows no stop
    token and the head commit has moved (so that [is_complete] answers
    false each time) and each delegation returns, the loop returns
    normally after creating and running exactly three "code" sessions.
    (A delegation that raises is the subject of C5.) *)
Theorem loop_runs_at_most_max_iterations :
  (∀ prompt s r s',
     run_loop engine prompt s = Some (r, s') →
     ∃ evs, trace s' = trace s ++ evs ∧
       (Z.of_nat (sessions_created "code" evs)
          ≤ Z.max 0 (max_iterations (self s)))%Z ∧
       (Z.of_nat (sessions_run "code" evs)
          ≤ Z.max 0 (max_iterations (self s)))%Z) ∧
  (∀ prompt s0 s1 s2 s3,
     max_iterations (self s0) = 3%Z →
     iteration_completes engine prompt 1 s0 s1 →
     iteration_completes engine prompt 2 s1 s2 →
     iteration_completes engine prompt 3 s2 s3 →
     run_loop engine prompt s0 = Some (Ret tt, s3) ∧
     ∃ evs, trace s3 = trace s0 ++ evs ∧
            sessions_created "code" evs = 3%nat ∧
            sessions_run "code" evs = 3%nat).
Proof.
  split.
  - intros prompt s r s' Hloop. unfold run_loop in Hloop.
    apply while_loop_bound in Hloop as (evs & Htrace & Hc & Hr).
    exists evs. rewrite Z.sub_0_r in Hc, Hr. done.
  - intros prompt s0 s1 s2 s3 Hmax H1 H2 H3. unfold run_loop.
    rewrite Hmax. change (Z.to_nat 3) with 3%nat.
    apply (iteration_completes_step 2 prompt 0) in H1
      as (-> & Hmax1 & evs1 & Htrace1 & Hc1 & Hr1); [|lia].
    change (0 + 1)%Z with 1%Z.
    apply (iteration_completes_step 1 prompt 1) in H2
      as (-> & Hmax2 & evs2 & Htrace2 & Hc2 & Hr2); [|lia].
    change (1 + 1)%Z with 2%Z.
    apply (iteration_completes_step 0 prompt 2) in H3
      as (-> & Hmax3 & evs3 & Htrace3 & Hc3 & Hr3); [|lia].
    rewrite while_loop_exit by (cbn; lia). split; [done|].
    exists (evs1 ++ evs2 ++ evs3).
    rewrite Htrace3, Htrace2, Htrace1, <- !app_assoc. split; [done|].
    unfold sessions_created, sessions_run in *. rewrite !count_app. lia.
Qed.

(** C5.  In any iteration, when the completion check has returned false
    and the run of the "code" session raises an exception [e] (a subclass
    of [Exception]), the loop ends at once with [SystemExit(1)], having
    printed the line that reports the iteration number and [str(e)]; the
    failed call is the last call into the engine.  In a run with
    [max_iterations = 5] whose first iteration completes and whose second
    delegation raises, [run] ends with exit status 1 after exactly two
    "code" sessions were created and run. *)
Theorem delegation_error_exits :
  (∀ fuel prompt iteration s s1 e s',
     (iteration < max_iterations (self s))%Z →
     is_complete s = (Ret false, s1) →
     delegates engine prompt (iteration + 1) s1 (Raise e) s' →
     is_Exception e = true →
     while_loop engine (S fuel) prompt iteration s =
       Some (Raise (SystemExit 1),
             printed (error_line (iteration + 1) e) s') ∧
     ∃ before, error_line (iteration + 1) e = before +:+ exn_str e) ∧
  (∀ s prompt s0 s0' s1 s1' e s',
     run_setup engine s = (Ret prompt, s0) →
     max_iterations (self s0) = 5%Z →
     is_complete s0 = (Ret false, s0') →
     delegates engine prompt 1 s0' (Ret tt) s1 →
     is_complete s1 = (Ret false, s1') →
     delegates engine prompt 2 s1' (Raise e) s' →
     is_Exception e = true →
     run engine s = Some (Raise (SystemExit 1), printed (error_line 2 e) s') ∧
     exit_status (Raise (SystemExit 1)) = 1%Z ∧
     ∃ evs, trace s' = trace s0 ++ evs ∧
            sessions_created "code" evs = 2%nat ∧
            sessions_run "code" evs = 2%nat).
Proof.
  split.
  - intros fuel prompt iteration s s1 e s' Hlt Hcheck Hdel Hexc. split.
    + by apply (check_false_raise_step fuel prompt iteration s s1 e s').
    + eexists. unfold error_line. by rewrite <- !string_app_assoc.
  - intros s prompt s0 s0' s1 s1' e s' Hsetup Hmax Hc0 Hd0 Hc1 Hd1 Hexc.
    unfold run, run_loop. rewrite Hsetup, Hmax.
    change (Z.to_nat 5) with 5%nat.
    apply (check_false_step 4 prompt 0 s0 s0' s1) in Hd0
      as (-> & Hmax1 & evs1 & Htrace1 & Hcr1 & Hrn1); [|lia|done].
    change (0 + 1)%Z with 1%Z.
    apply (check_false_raise_step 3 prompt 1 s1 s1' e s') in Hd1
      as (-> & evs2 & Htrace2 & Hcr2 & Hrn2); [|lia|done..].
    split; [done|]. split; [done|].
    exists (evs1 ++ evs2). rewrite Htrace2, Htrace1, <- app_assoc.
    split; [done|].
    unfold sessions_created, sessions_run in *. rewrite !count_app. lia.
Qed.

(** C8, as it holds.  A parse error of the override file is caught
    neither by [load_config] nor by [create_coder].  When it is raised
    while the "architect" session is being created, it leaves [run]
    uncaught, with nothing printed, and the process dies of it (status
    1).  When it is raised while a "code" session is being created, the
    [except Exception] handler of the loop catches it, prints the error
    line for that iteration, and ends the process with [SystemExit(1)]. *)
Theorem config_parse_error_handling :
  (∀ s mode msg,
     user_conf (world s) = Some (Raise (YAMLError msg)) →
     load_config s = (Raise (YAMLError msg), s) ∧
     create_coder engine mode s = (Raise (YAMLError msg), s)) ∧
  (∀ s text msg,
     fs (world s) !! requirements_file (self s) = Some (File text) →
     text ≠ "" →
     user_conf (world s) = Some (Raise (YAMLError msg)) →
     run engine s = Some (Raise (YAMLError msg), s) ∧
     exit_status (Raise (YAMLError msg)) = 1%Z) ∧
  (∀ fuel prompt iteration s s1 msg,
     (iteration < max_iterations (self s))%Z →
     is_complete s = (Ret false, s1) →
     user_conf (world s1) = Some (Raise (YAMLError msg)) →
     while_loop engine (S fuel) prompt iteration s =
       Some (Raise (SystemExit 1),
             printed (error_line (iteration + 1) (YAMLError msg))
               (printed (starting_line (iteration + 1)) s1))).
Proof.
  split; [|split].
  - intros s mode msg Hconf.
    split; [by apply load_config_raise | by apply create_coder_config_raise].
  - intros s text msg Hfile Htext Hconf. split; [|done].
    unfold run. rewrite run_setup_unfold.
    rewrite (read_prompt_file_text s _ text Hfile). cbn [str_truthy].
    apply String.eqb_neq in Htext as ->. cbn [negb].
    by rewrite (create_coder_config_raise s "architect" _ Hconf).
  - intros fuel prompt iteration s s1 msg Hlt Hcheck Hconf.
    rewrite while_loop_step by done.
    by rewrite (loop_body_config_raises s prompt iteration s1 _ Hcheck Hconf).
Qed.

(** C10.  An empty prompt file ends the run as a missing one does.  With
    the requirements file empty, [read_prompt_file] returns the empty
    string, which [if not requirements] takes for a missing value, and
    [run] ends with [SystemExit(1)] without having called the engine; the
    same run with the file deleted ends the same way, after the warning.
    With the continuation-prompt file empty once the architecture phase is
    over, [run] ends with [SystemExit(1)] in the state that the phase
    left, before any completion check or "code" session; with the file
    absent it ends the same way, after the warning. *)
Theorem empty_prompt_exits :
  (∀ s,
     fs (world s) !! requirements_file (self s) = Some (File "") →
     read_prompt_file (requirements_file (self s)) s = (Ret (Some ""), s) ∧
     str_truthy (Some "") = false ∧
     run engine s = Some (Raise (SystemExit 1), s) ∧
     run engine (with_file (requirements_file (self s)) None s) =
       Some (Raise (SystemExit 1),
             printed (warning_line (requirements_file (self s)))
               (with_file (requirements_file (self s)) None s)) ∧
     exit_status (Raise (SystemExit 1)) = 1%Z) ∧
  (∀ s text coder s1 s2,
     fs (world s) !! requirements_file (self s) = Some (File text) →
     text ≠ "" →
     create_coder engine "architect" s = (Ret coder, s1) →
     coder_run engine coder text s1 = (Ret tt, s2) →
     (fs (world s2) !! continuation_prompt_file (self s) = Some (File "") →
        read_prompt_file (continuation_prompt_file (self s)) s2
          = (Ret (Some ""), s2) ∧
        run engine s = Some (Raise (SystemExit 1), s2)) ∧
     (fs (world s2) !! continuation_prompt_file (self s) = None →
        run engine s =
          Some (Raise (SystemExit 1),
                printed (warning_line (continuation_prompt_file (self s)))
                  s2))).
Proof.
  split.
  - intros s Hfile. split; [by apply read_prompt_file_text|].
    split; [done|]. split; [|split; [|done]].
    + unfold run. rewrite run_setup_unfold.
      by rewrite (read_prompt_file_text s _ "" Hfile).
    + unfold run. rewrite run_setup_unfold.
      cbn [with_file self].
      rewrite read_prompt_file_absent; [done|].
      cbn [with_file world fs]. apply lookup_delete_eq.
  - intros s text coder s1 s2 Hfile Htext Hcreate Hrun.
    assert (Hsetup : run_setup engine s =
      match read_prompt_file (continuation_prompt_file (self s)) s2 with
      | (Raise e, s4) => (Raise e, s4)
      | (Ret continuation_prompt, s4) =>
          if negb (str_truthy continuation_prompt)
          then (Raise (SystemExit 1), s4)
          else (Ret (prompt_text continuation_prompt), s4)
      end).
    { rewrite run_setup_unfold.
      rewrite (read_prompt_file_text s _ text Hfile). cbn [str_truthy].
      apply String.eqb_neq in Htext as ->. cbn [negb prompt_text from_option id].
      by rewrite Hcreate, Hrun. }
    unfold run. rewrite Hsetup. split; intros Hcont.
    + by rewrite (read_prompt_file_text s2 _ "" Hcont).
    + by rewrite (read_prompt_file_absent s2 _ Hcont).
Qed.

(** *** The unused parameter *)

Lemma load_config_commit_prompt_file p s :
  load_config (with_commit_prompt_file p s) =
    on_state (with_commit_prompt_file p) (load_config s).
Proof. unfold load_config. commute_by_cases. Qed.

Lemma is_complete_commit_prompt_file p s :
  is_complete (with_commit_prompt_file p s) =
    on_state (with_commit_prompt_file p) (is_complete s).
Proof. unfold is_complete. commute_by_cases. Qed.

Lemma read_prompt_file_commit_prompt_file p path s :
  read_prompt_file path (with_commit_prompt_file p s) =
    on_state (with_commit_prompt_file p) (read_prompt_file path s).
Proof. unfold read_prompt_file. commute_by_cases. Qed.

Lemma create_coder_commit_prompt_file p mode s :
  create_coder engine mode (with_commit_prompt_file p s) =
    on_state (with_commit_prompt_file p) (create_coder engine mode s).
Proof.
  unfold create_coder. unfold_monad.
  rewrite load_config_commit_prompt_file.
  destruct (load_config s) as [[config|e] s1] eqn:Hload;
    apply load_config_pure in Hload; subst s1; [|done].
  commute_by_cases.
Qed.

Lemma coder_run_commit_prompt_file p coder with_message s :
  coder_run engine coder with_message (with_commit_prompt_file p s) =
    on_state (with_commit_prompt_file p)
      (coder_run engine coder with_message s).
Proof. unfold coder_run. commute_by_cases. Qed.

Lemma loop_body_commit_prompt_file p prompt iteration s :
  loop_body engine prompt iteration (with_commit_prompt_file p s) =
    on_state (with_commit_prompt_file p)
      (loop_body engine prompt iteration s).
Proof.
  rewrite !loop_body_check, is_complete_commit_prompt_file.
  destruct (is_complete s) as [[[|]|e] s1]; [done| |done].
  push_commit_prompt_file. rewrite create_coder_commit_prompt_file.
  destruct (create_coder engine "code" _) as [[coder|e] s2];
    push_commit_prompt_file.
  - rewrite coder_run_commit_prompt_file.
    destruct (coder_run engine coder prompt s2) as [[[]|e] s3];
      push_commit_prompt_file; [done|].
    by destruct (is_Exception e).
  - by destruct (is_Exception e).
Qed.

Lemma while_loop_commit_prompt_file p fuel prompt iteration s :
  while_loop engine fuel prompt iteration (with_commit_prompt_file p s) =
    on_state (with_commit_prompt_file p)
      <$> while_loop engine fuel prompt iteration s.
Proof.
  revert iteration s. induction fuel as [|fuel IH]; intros iteration s;
    cbn [while_loop with_commit_prompt_file set_commit_prompt_file self
         max_iterations];
    destruct (iteration <? max_iterations (self s))%Z; try done.
  push_commit_prompt_file. rewrite loop_body_commit_prompt_file.
  destruct (loop_body engine prompt iteration s) as [[[|iteration']|e] s1];
    push_commit_prompt_file; [done| |done].
  apply IH.
Qed.

Lemma run_setup_commit_prompt_file p s :
  run_setup engine (with_commit_prompt_file p s) =
    on_state (with_commit_prompt_file p) (run_setup engine s).
Proof.
  rewrite !run_setup_unfold. push_commit_prompt_file.
  rewrite read_prompt_file_commit_prompt_file.
  destruct (read_prompt_file _ s) as [[requirements|e] s1];
    push_commit_prompt_file; [|done].
  destruct (negb (str_truthy requirements)); [done|].
  rewrite create_coder_commit_prompt_file.
  destruct (create_coder engine "architect" s1) as [[coder|e] s2];
    push_commit_prompt_file; [|done].
  rewrite coder_run_commit_prompt_file.
  destruct (coder_run engine coder _ s2) as [[[]|e] s3];
    push_commit_prompt_file; [|done].
  rewrite read_prompt_file_commit_prompt_file.
  destruct (read_prompt_file _ s3) as [[continuation_prompt|e] s4];
    push_commit_prompt_file; [|done].
  by destruct (negb (str_truthy continuation_prompt)).
Qed.

(** C9.  The value of [commit_prompt_file] does not reach anything that
    can be observed.  Running any operation on an orchestrator whose
    [commit_prompt_file] has been replaced by [p] gives the same result,
    the same world and the same record of prints and engine calls as on
    the original, and an orchestrator that differs from the original's in
    that field only; and [__init__] with two values of the parameter
    builds orchestrators that differ in that field only. *)
Theorem commit_prompt_file_noninterference :
  ∀ (p : string) (s : State Ext),
    run engine (with_commit_prompt_file p s) =
      on_state (with_commit_prompt_file p) <$> run engine s ∧
    load_config (with_commit_prompt_file p s) =
      on_state (with_commit_prompt_file p) (load_config s) ∧
    is_complete (with_commit_prompt_file p s) =
      on_state (with_commit_prompt_file p) (is_complete s) ∧
    (∀ path,
       read_prompt_file path (with_commit_prompt_file p s) =
         on_state (with_commit_prompt_file p) (read_prompt_file path s)) ∧
    (∀ mode,
       create_coder engine mode (with_commit_prompt_file p s) =
         on_state (with_commit_prompt_file p)
           (create_coder engine mode s)) ∧
    (∀ requirements continuation p' limit token (w : World Ext),
       init requirements continuation p limit token w =
         match init requirements continuation p' limit token w with
         | Ret o => Ret (set_commit_prompt_file p o)
         | Raise e => Raise e
         end).
Proof.
  intros p s. repeat split.
  - unfold run. rewrite run_setup_commit_prompt_file.
    destruct (run_setup engine s) as [[prompt|e] s1];
      push_commit_prompt_file; [|done].
    unfold run_loop. push_commit_prompt_file.
    apply while_loop_commit_prompt_file.
  - apply load_config_commit_prompt_file.
  - apply is_complete_commit_prompt_file.
  - intros path. apply read_prompt_file_commit_prompt_file.
  - intros mode. apply create_coder_commit_prompt_file.
  - intros requirements continuation p' limit token w. unfold init.
    by destruct (head w).
Qed.

End Properties.

(** ** Concrete runs *)

Module Witnesses.
Import Examples.

Example init_builds_orchestrator :
  init "requirements.txt" "continuation.txt" "commit_prompt.txt" 3 "DONE"
    base_world = Ret (orchestrator 3).
Proof. reflexivity. Qed.

(** C2 on a history that ends a session: the check answers true although
    the head commit has moved. *)
Lemma is_complete_stop_token_short_circuits_witness :
  let s := after (run_setup (scripted finishing)) (start 3 base_world) in
  head (world s) = Ret "commit-1" ∧
  previous_hash (self s) = "commit-0" ∧
  is_complete s = (Ret true, s).
Proof.
  split; [reflexivity|]. split; [reflexivity|].
  apply (is_complete_stop_token_short_circuits _
           "# aider chat. Plan written, all tasks DONE.").
  - vm_compute. reflexivity.
  - exists "# aider chat. Plan written, all tasks ", ".". reflexivity.
Defined.

(** C3 after an architect run that committed: the check answers false
    and remembers the new head. *)
Lemma is_complete_commit_comparison_witness :
  let s := after (run_setup (scripted committing)) (start 3 base_world) in
  is_complete s = (Ret false, with_previous_hash "commit-1" s) ∧
  previous_hash (self (with_previous_hash "commit-1" s)) = "commit-1".
Proof.
  apply (is_complete_commit_comparison _ "commit-1").
  - vm_compute. exact I.
  - vm_compute. reflexivity.
  - vm_compute. discriminate.
Defined.

(** C4 on an override file that sets one default and adds one key. *)
Lemma load_config_shallow_merge_witness :
  ∃ config,
    load_config (start 3 (world_of (files None None)
                            (Some (Ret (YMap overrides)))))
      = (Ret config,
         start 3 (world_of (files None None)
                    (Some (Ret (YMap overrides))))) ∧
    (∀ key value,
       overrides !! key = Some value → config !! key = Some value) ∧
    (∀ key,
       overrides !! key = None →
       config !! key = default_base_config !! key).
Proof.
  apply (load_config_shallow_merge
           (start 3 (world_of (files None None)
                       (Some (Ret (YMap overrides)))))
           (Some overrides)).
  reflexivity.
Defined.

(** C6 in a world without [requirements.txt]. *)
Lemma missing_requirements_exits_witness :
  run (scripted committing)
    (start 3 (world_of (files None (Some "Continue.")) None)) =
    Some (Raise (SystemExit 1),
          printed "Warning: Prompt file not found: requirements.txt"
            (start 3 (world_of (files None (Some "Continue.")) None))).
Proof.
  apply (missing_requirements_exits (scripted committing)
           (start 3 (world_of (files None (Some "Continue.")) None))).
  vm_compute. reflexivity.
Defined.

(** C7 with an architect that leaves the stop token behind. *)
Lemma stop_token_before_loop_witness :
  let s1 := after (run_setup (scripted finishing)) (start 3 base_world) in
  run (scripted finishing) (start 3 base_world) = Some (Ret tt, s1).
Proof.
  apply (stop_token_before_loop (scripted finishing) (start 3 base_world)
           "Continue." _ "# aider chat. Plan written, all tasks DONE.").
  - vm_compute. reflexivity.
  - vm_compute. discriminate.
  - vm_compute. reflexivity.
  - exists "# aider chat. Plan written, all tasks ", ".". reflexivity.
Defined.

(** C1 with an engine that commits in every run: three iterations, then
    the loop is over. *)
Lemma loop_runs_at_most_max_iterations_witness :
  let engine := scripted committing in
  let s0 := after (run_setup engine) (start 3 base_world) in
  let s1 := after (loop_body engine "Continue." 0) s0 in
  let s2 := after (loop_body engine "Continue." 1) s1 in
  let s3 := after (loop_body engine "Continue." 2) s2 in
  run_loop engine "Continue." s0 = Some (Ret tt, s3) ∧
  ∃ evs, trace s3 = trace s0 ++ evs ∧
         sessions_created "code" evs = 3%nat ∧
         sessions_run "code" evs = 3%nat.
Proof.
  intros engine s0 s1 s2 s3.
  apply (proj2 (loop_runs_at_most_max_iterations engine)
           "Continue." s0 s1 s2 s3).
  - reflexivity.
  - run_iteration engine "commit-1".
  - run_iteration engine "commit-2".
  - run_iteration engine "commit-3".
Defined.

(** C5 with an engine whose third run, the delegation of iteration 2,
    raises: the process exits with status 1 after two "code" sessions. *)
Lemma delegation_error_exits_witness :
  let engine := scripted (failing_at 3) in
  let s0 := after (run_setup engine) (start 5 base_world) in
  let s1 := after (loop_body engine "Continue." 0) s0 in
  let s' :=
    after (coder_run engine (session "code") "Continue.")
      (after (create_coder engine "code")
         (printed "Starting iteration 2" (after is_complete s1))) in
  run engine (start 5 base_world) =
    Some (Raise (SystemExit 1),
          printed "Error during iteration 2: model unavailable" s') ∧
  exit_status (Raise (SystemExit 1)) = 1%Z ∧
  ∃ evs, trace s' = trace s0 ++ evs ∧
         sessions_created "code" evs = 2%nat ∧
         sessions_run "code" evs = 2%nat.
Proof.
  intros engine s0 s1 s'.
  apply (proj2 (delegation_error_exits engine)
           (start 5 base_world) "Continue." s0 (after is_complete s0)
           s1 (after is_complete s1)
           (OtherError "RuntimeError" "model unavailable") s').
  - vm_compute. reflexivity.
  - reflexivity.
  - vm_compute. reflexivity.
  - run_delegation engine.
  - vm_compute. reflexivity.
  - run_delegation engine.
  - reflexivity.
Defined.

(** C8 on both paths: an override file that is unparsable from the start
    ends [run] with the parse error itself, and one that becomes
    unparsable during the architect's run ends the first iteration in
    the handler of the loop. *)
Lemma config_parse_error_handling_witness :
  let broken := start 3 (world_of (files (Some "Build a parser.")
                                     (Some "Continue."))
                           (Some (Raise (YAMLError "bad indentation")))) in
  let engine := scripted corrupting in
  let s0 := after (run_setup engine) (start 3 base_world) in
  (run engine broken = Some (Raise (YAMLError "bad indentation"), broken) ∧
   exit_status (Raise (YAMLError "bad indentation")) = 1%Z) ∧
  while_loop engine 3 "Continue." 0 s0 =
    Some (Raise (SystemExit 1),
          printed "Error during iteration 1: mapping values are not allowed here"
            (printed "Starting iteration 1"
               (with_previous_hash "commit-1" s0))).
Proof.
  intros broken engine s0. split.
  - apply (proj1 (proj2 (config_parse_error_handling engine))
             broken "Build a parser." "bad indentation").
    + vm_compute. reflexivity.
    + discriminate.
    + reflexivity.
  - apply (proj2 (proj2 (config_parse_error_handling engine))
             2%nat "Continue." 0%Z s0 (with_previous_hash "commit-1" s0)
             "mapping values are not allowed here").
    + vm_compute. reflexivity.
    + vm_compute. reflexivity.
    + vm_compute. reflexivity.
Defined.

(** C8 as stated fails: the architect's run leaves the override file
    unparsable, the first iteration calls [load_config], which raises the
    parse error, and the error does not leave [run]: the handler of the
    loop prints its line and the process ends with [SystemExit(1)]. *)
Lemma parse_error_caught_by_loop_handler :
  let engine := scripted corrupting in
  let s1 :=
    printed "Starting iteration 1"
      (after is_complete (after (run_setup engine) (start 3 base_world))) in
  load_config s1 =
    (Raise (YAMLError "mapping values are not allowed here"), s1) ∧
  run engine (start 3 base_world) =
    Some (Raise (SystemExit 1),
          printed
            "Error during iteration 1: mapping values are not allowed here"
            s1) ∧
  ∀ s', run engine (start 3 base_world) ≠
          Some (Raise (YAMLError "mapping values are not allowed here"), s').
Proof.
  intros engine s1.
  assert (Hrun : run engine (start 3 base_world) =
    Some (Raise (SystemExit 1),
          printed
            "Error during iteration 1: mapping values are not allowed here"
            s1)) by (vm_compute; reflexivity).
  split; [vm_compute; reflexivity|]. split; [exact Hrun|].
  intros s'. rewrite Hrun. discriminate.
Qed.

(** C10 with an empty [requirements.txt], and with an empty
    [continuation.txt] after an architect run that returned. *)
Lemma empty_prompt_exits_witness :
  let engine := scripted committing in
  let no_requirements :=
    start 3 (world_of (files (Some "") (Some "Continue.")) None) in
  let no_continuation :=
    start 3 (world_of (files (Some "Build a parser.") (Some "")) None) in
  let s2 :=
    after (coder_run engine (session "architect") "Build a parser.")
      (after (create_coder engine "architect") no_continuation) in
  run engine no_requirements = Some (Raise (SystemExit 1), no_requirements) ∧
  run engine no_continuation = Some (Raise (SystemExit 1), s2).
Proof.
  intros engine no_requirements no_continuation s2. split.
  - apply (proj1 (empty_prompt_exits engine) no_requirements).
    vm_compute. reflexivity.
  - apply (proj2 (empty_prompt_exits engine) no_continuation
             "Build a parser." (session "architect")
             (after (create_coder engine "architect") no_continuation) s2).
    + vm_compute. reflexivity.
    + discriminate.
    + vm_compute. reflexivity.
    + vm_compute. reflexivity.
    + vm_compute. reflexivity.
Defined.
End Witnesses.

(** * Further properties *)

Section Further.
Context {Ext : Type}.
Variable engine : ext_call → World Ext → option exn * World Ext.

Implicit Types (s : State Ext) (e : exn).

(** *** More on [load_config] *)

Lemma load_config_covers_defaults s config s' key :
  load_config s = (Ret config, s') →
  is_Some (base_config (self s) !! key) → is_Some (config !! key).
Proof.
  unfold load_config.
  destruct (user_conf (world s)) as [[v|e]|] eqn:Hconf; script_rw Hconf;
    [|done|by intros [= <- _]].
  destruct (truthy v), v; try done; intros [= <- _] Hdefault;
    apply lookup_union_is_Some; by right.
Qed.

(** X1.  An override file whose document is truthy but not a mapping (a
    list, a string, a number, [true]) makes [load_config] raise the
    [TypeError] of [{**base, **user}]; nothing else happens. *)
Theorem load_config_rejects_non_mapping s v :
  user_conf (world s) = Some (Ret v) →
  truthy v = true →
  (∀ m, v ≠ YMap m) →
  load_config s =
    (Raise (TypeError ("'" +:+ type_name v +:+ "' object is not a mapping")),
     s).
Proof.
  intros Hconf Htruthy Hshape. unfold load_config. script_rw Hconf.
  rewrite Htruthy. destruct v; try done. by destruct (Hshape m).
Qed.

(** X2.  An override file whose document is falsy (an empty file, [null],
    [false], [0], an empty string, list or mapping) is ignored by
    [user_config or {}]: [load_config] returns the defaults. *)
Theorem load_config_falsy_document s v :
  user_conf (world s) = Some (Ret v) →
  truthy v = false →
  load_config s = (Ret (base_config (self s)), s).
Proof.
  intros Hconf Hfalsy. unfold load_config. script_rw Hconf.
  rewrite Hfalsy. unfold_monad. by rewrite (left_id_L ∅ (∪)).
Qed.

(** X3.  Whenever [load_config] returns, it has not changed the state, the
    result has every key of the defaults, and each of its entries is an
    entry of the defaults or of the mapping in the override file. *)
Theorem load_config_entries s config s' :
  load_config s = (Ret config, s') →
  s' = s ∧
  (∀ key, is_Some (base_config (self s) !! key) → is_Some (config !! key)) ∧
  (∀ key value,
     config !! key = Some value →
     base_config (self s) !! key = Some value ∨
     ∃ m, user_conf (world s) = Some (Ret (YMap m)) ∧ m !! key = Some value).
Proof.
  intros Hload. split; [by apply load_config_pure in Hload|].
  split; [intros key; by apply (load_config_covers_defaults s config s')|].
  revert Hload. unfold load_config.
  destruct (user_conf (world s)) as [[v|e]|] eqn:Hconf; script_rw Hconf;
    [|done|intros [= <- _]; by left].
  destruct (truthy v) eqn:Htruthy, v; try done; intros [= <- _] key value;
    rewrite lookup_union_Some_raw; intros [Hm|[_ Hbase]];
    first [by left | by right; eauto | by rewrite lookup_empty in Hm].
Qed.

(** *** More on [create_coder] *)

(** X4.  A session that [create_coder] returns is built from the merged
    configuration: its four flags are the values of the corresponding keys
    after the merge, so an override in the file reaches the session; it
    has the fixed model, no writable file, and the orchestrator's read-only
    files, and it is in the requested mode. *)
Theorem create_coder_session_from_config s mode coder s' :
  create_coder engine mode s = (Ret coder, s') →
  ∃ config,
    load_config s = (Ret config, s) ∧
    config !! "auto_commits" = Some (auto_commits coder) ∧
    config !! "auto_lint" = Some (auto_lint coder) ∧
    config !! "auto_test" = Some (auto_test coder) ∧
    config !! "stream" = Some (stream coder) ∧
    main_model coder = "gpt-4-turbo" ∧
    fnames coder = [] ∧
    read_only_fnames coder = read_files (self s) ∧
    chat_mode coder = mode.
Proof.
  unfold create_coder. unfold_monad.
  destruct (load_config s) as [[config|e] s1] eqn:Hload;
    pose proof Hload as Hpure; apply load_config_pure in Hpure; subst s1;
    [|done].
  repeat (first [step_engine engine | step_getitem]); try done.
  intros [= <- _]. exists config. cbn. eauto 10.
Qed.

(** X5.  For an orchestrator whose defaults have the four keys that
    [create_coder] reads (as those built by [__init__] have), the lookups
    never fail: an exception out of [create_coder] is the one that
    [load_config] raised, or one that a call into the engine raised, which
    is then the last event. *)
Theorem create_coder_failure_origin s mode e s' :
  is_Some (base_config (self s) !! "auto_commits") →
  is_Some (base_config (self s) !! "auto_lint") →
  is_Some (base_config (self s) !! "auto_test") →
  is_Some (base_config (self s) !! "stream") →
  create_coder engine mode s = (Raise e, s') →
  load_config s = (Raise e, s) ∨
  ∃ c evs, trace s' = trace s ++ evs ++ [Called c (Some e)].
Proof.
  intros Hk1 Hk2 Hk3 Hk4. unfold create_coder. unfold_monad.
  destruct (load_config s) as [[config|e0] s1] eqn:Hload;
    pose proof Hload as Hpure; apply load_config_pure in Hpure; subst s1.
  2: { intros [= <- _]. by left. }
  apply (load_config_covers_defaults s config s) in Hk1, Hk2, Hk3, Hk4;
    try done.
  destruct Hk1 as [v1 Hv1], Hk2 as [v2 Hv2], Hk3 as [v3 Hv3], Hk4 as [v4 Hv4].
  repeat (first [step_engine engine | step_getitem]); try done;
    try congruence;
    intros [= <- <-]; right; cbn [trace]; rewrite <- ?app_assoc;
    first [ by eexists _, [] | by eexists _, [_] | by eexists _, [_; _] ].
Qed.

(** *** More on [is_complete] *)

(** A check answers false in one way only. *)
Lemma is_complete_false_inv s s' :
  is_complete s = (Ret false, s') →
  no_stop_token s ∧
  ∃ h, head (world s) = Ret h ∧ h ≠ previous_hash (self s) ∧
       s' = with_previous_hash h s.
Proof.
  unfold is_complete, no_stop_token.
  destruct (fs (world s) !! ".aider.chat.history.md") as [[text|e]|] eqn:Hfile;
    script_rw Hfile; [|done|].
  1: destruct (str_contains (stop_token (self s)) text) eqn:Htoken; [done|].
  all: unfold_monad; destruct (head (world s)) as [h|e]; [|done];
    destruct (String.eqb h (previous_hash (self s))) eqn:Heq; [done|];
    apply String.eqb_neq in Heq; intros [= <-]; eauto.
Qed.

Lemma is_complete_unchanged_head s h :
  no_stop_token s →
  head (world s) = Ret h →
  previous_hash (self s) = h →
  is_complete s =
    (Ret true, printed "Not modified. Finalizing session..." s).
Proof.
  intros Hno Hhead Hprev.
  by rewrite (is_complete_no_token s Hno), Hhead, <- Hprev, String.eqb_refl.
Qed.

(** X6.  A check that answered false has recorded the head it saw: a
    second check in the world it left answers true and prints the
    "Not modified" line. *)
Theorem is_complete_twice s s' :
  is_complete s = (Ret false, s') →
  is_complete s' =
    (Ret true, printed "Not modified. Finalizing session..." s').
Proof.
  intros Hcheck.
  apply is_complete_false_inv in Hcheck as (Hno & h & Hhead & _ & ->).
  by apply (is_complete_unchanged_head _ h).
Qed.

(** X7.  With an empty stop token, an existing chat-history file always
    stops the orchestration, whatever it contains and whatever the head
    commit is: the empty string is a substring of every text. *)
Theorem is_complete_empty_stop_token s text :
  stop_token (self s) = "" →
  fs (world s) !! ".aider.chat.history.md" = Some (File text) →
  is_complete s = (Ret true, s).
Proof.
  intros Htoken Hfile. apply (is_complete_stop_token s text Hfile).
  rewrite Htoken. apply str_contains_spec. by exists "", text.
Qed.

(** X8.  A failure of the completion check is not handled anywhere.  When
    the chat-history file exists but cannot be read, or when it shows no
    stop token and the head commit cannot be read, [is_complete] raises
    the error, and the loop ends with that error, nothing printed and
    nothing delegated, also when the error is an [Exception]. *)
Theorem check_failure_leaves_loop s e :
  fs (world s) !! ".aider.chat.history.md" = Some (Unreadable e) ∨
  (no_stop_token s ∧ head (world s) = Raise e) →
  is_complete s = (Raise e, s) ∧
  ∀ fuel prompt iteration,
    (iteration < max_iterations (self s))%Z →
    while_loop engine (S fuel) prompt iteration s = Some (Raise e, s).
Proof.
  intros Hcase.
  assert (Hcheck : is_complete s = (Raise e, s)).
  { destruct Hcase as [Hfile|[Hno Hhead]].
    - unfold is_complete. by script_rw Hfile.
    - by rewrite (is_complete_no_token s Hno), Hhead. }
  split; [done|]. intros fuel prompt iteration Hlt.
  by rewrite while_loop_step, loop_body_check, Hcheck.
Qed.

(** *** More on the loop *)

(** X9.  An iteration that changes nothing is the last one.  When an
    iteration's delegation returns having left the head commit as the check
    before it saw it, and the history still shows no stop token, the next
    check ends the loop normally with the "Not modified" line, provided
    the bound allows a next pass. *)
Theorem idle_iteration_ends_loop fuel prompt iteration s s1 s2 :
  (iteration + 1 < max_iterations (self s))%Z →
  is_complete s = (Ret false, s1) →
  delegates engine prompt (iteration + 1) s1 (Ret tt) s2 →
  head (world s2) = head (world s) →
  no_stop_token s2 →
  while_loop engine (S (S fuel)) prompt iteration s =
    Some (Ret tt, printed "Not modified. Finalizing session..." s2).
Proof.
  intros Hlt Hcheck Hdel Hhead Hno.
  destruct (check_false_step engine fuel prompt iteration s s1 s2)
    as (_ & Hmax & _); [lia|done..|].
  pose proof (loop_body_continue engine s prompt iteration s1 s2 Hcheck Hdel)
    as Hbody.
  rewrite while_loop_step, Hbody by lia.
  rewrite while_loop_step, loop_body_check by lia.
  apply is_complete_false_inv in Hcheck as (_ & h & Hh & _ & ->).
  destruct Hdel as (coder & s' & Hcreate & Hrun).
  apply create_coder_ok in Hcreate as (_ & Hself' & _).
  apply coder_run_spec in Hrun as (Hself2 & _).
  rewrite (is_complete_unchanged_head s2 h); [done..| |].
  - by rewrite Hhead.
  - by rewrite Hself2, Hself'.
Qed.

(** X10.  When the architecture phase leaves the head commit where
    [__init__] found it and the history shows no stop token, there is no
    iteration at all: the first check finds nothing modified and [run]
    returns normally. *)
Theorem no_commit_no_iteration requirements continuation commit limit token
    (w : World Ext) o events prompt s1 :
  init requirements continuation commit limit token w = Ret o →
  run_setup engine (mkState o w events) = (Ret prompt, s1) →
  head (world s1) = head w →
  no_stop_token s1 →
  (1 ≤ limit)%Z →
  run engine (mkState o w events) =
    Some (Ret tt, printed "Not modified. Finalizing session..." s1).
Proof.
  intros Hinit Hsetup Hhead Hno Hlimit. unfold run, run_loop.
  rewrite Hsetup.
  apply run_setup_frame in Hsetup as [Hself _]. cbn [self] in Hself.
  unfold init in Hinit. destruct (head w) as [hexsha|e] eqn:Hw; [|done].
  injection Hinit as <-.
  rewrite Hself. cbn [max_iterations].
  destruct (Z.to_nat limit) as [|fuel] eqn:Hfuel; [lia|].
  rewrite while_loop_step, loop_body_check by (rewrite Hself; cbn; lia).
  rewrite (is_complete_unchanged_head s1 hexsha); [done..|].
  by rewrite Hself.
Qed.

(** X11.  With [max_iterations] zero or negative the loop does nothing,
    not even a completion check: [run] returns in the state that the
    architecture phase left. *)
Theorem no_iterations_allowed s prompt s1 :
  run_setup engine s = (Ret prompt, s1) →
  (max_iterations (self s1) ≤ 0)%Z →
  run engine s = Some (Ret tt, s1).
Proof.
  intros Hsetup Hmax. unfold run, run_loop. rewrite Hsetup.
  by apply while_loop_exit.
Qed.


(** X13.  When creating the "code" session fails with an [Exception], the
    handler of the loop treats it as a failed delegation: the error line is
    printed and the process ends with [SystemExit(1)]; in that iteration no
    session was created and none was run. *)
Theorem session_creation_failure_exits fuel prompt iteration s s1 e s2 :
  (iteration < max_iterations (self s))%Z →
  is_complete s = (Ret false, s1) →
  create_coder engine "code" (printed (starting_line (iteration + 1)) s1)
    = (Raise e, s2) →
  is_Exception e = true →
  while_loop engine (S fuel) prompt iteration s =
    Some (Raise (SystemExit 1), printed (error_line (iteration + 1) e) s2) ∧
  ∃ evs, trace s2 = trace s ++ evs ∧
         ∀ mode, sessions_created mode evs = 0%nat ∧
                 sessions_run mode evs = 0%nat.
Proof.
  intros Hlt Hcheck Hcreate Hexc. split.
  - by rewrite while_loop_step, loop_body_check, Hcheck, Hcreate, Hexc.
  - apply is_complete_frame in Hcheck as (_ & _ & evs1 & Htrace1 & Hcount1).
    apply create_coder_raise in Hcreate as (_ & evs2 & Htrace2 & Hcount2).
    cbn [printed trace] in Htrace2. eexists.
    rewrite Htrace2, Htrace1, <- !app_assoc. split; [reflexivity|].
    intros mode. destruct (Hcount2 mode) as [Hc2 Hr2].
    unfold sessions_created, sessions_run in *.
    rewrite !count_app, !Hcount1, Hc2, Hr2 by done. done.
Qed.

(** *** More on the architecture phase *)

(** X14.  A prompt file that exists but cannot be read, for a reason
    other than [FileNotFoundError], is no "missing prompt": no warning is
    printed, [read_prompt_file] raises the error, and when the file is the
    requirements file [run] ends with that error before any session. *)
Theorem unreadable_prompt_propagates s e :
  fs (world s) !! requirements_file (self s) = Some (Unreadable e) →
  (∀ path, e ≠ FileNotFoundError path) →
  read_prompt_file (requirements_file (self s)) s = (Raise e, s) ∧
  run engine s = Some (Raise e, s).
Proof.
  intros Hfile Hother.
  assert (Hread : read_prompt_file (requirements_file (self s)) s
                  = (Raise e, s)).
  { unfold read_prompt_file. script_rw Hfile.
    destruct e; try done. by destruct (Hother path). }
  split; [done|]. unfold run. by rewrite run_setup_unfold, Hread.
Qed.

(** X15.  The architecture phase has no handler.  With a non-empty
    requirements file, an exception raised while the "architect" session is
    created, or by its run, ends [run] with that very exception: no error
    line, no [SystemExit(1)], and the loop is never reached. *)
Theorem architect_failure_propagates s text e :
  fs (world s) !! requirements_file (self s) = Some (File text) →
  text ≠ "" →
  (∀ s1, create_coder engine "architect" s = (Raise e, s1) →
         run engine s = Some (Raise e, s1)) ∧
  (∀ coder s1 s2,
     create_coder engine "architect" s = (Ret coder, s1) →
     coder_run engine coder text s1 = (Raise e, s2) →
     run engine s = Some (Raise e, s2)).
Proof.
  intros Hfile Htext.
  assert (Hsetup : run_setup engine s =
    match create_coder engine "architect" s with
    | (Raise e, s2) => (Raise e, s2)
    | (Ret architect_coder, s2) =>
        match coder_run engine architect_coder text s2 with
        | (Raise e, s3) => (Raise e, s3)
        | (Ret _, s3) =>
            match read_prompt_file (continuation_prompt_file (self s)) s3 with
            | (Raise e, s4) => (Raise e, s4)
            | (Ret continuation_prompt, s4) =>
                if negb (str_truthy continuation_prompt)
                then (Raise (SystemExit 1), s4)
                else (Ret (prompt_text continuation_prompt), s4)
            end
        end
    end).
  { rewrite run_setup_unfold, (read_prompt_file_text s _ text Hfile).
    cbn [str_truthy]. apply String.eqb_neq in Htext as ->.
    by cbn [negb prompt_text from_option id]. }
  unfold run. rewrite Hsetup. split.
  - intros s1 Hcreate. by rewrite Hcreate.
  - intros coder s1 s2 Hcreate Hrun. by rewrite Hcreate, Hrun.
Qed.

(** *** What a whole run keeps *)

Lemma set_previous_hash_twice (o o1 o2 : AiderOrchestrator) :
  o1 = set_previous_hash (previous_hash o1) o →
  o2 = set_previous_hash (previous_hash o2) o1 →
  o2 = set_previous_hash (previous_hash o2) o.
Proof. intros -> ->. done. Qed.

Lemma while_loop_self fuel prompt iteration s r s' :
  while_loop engine fuel prompt iteration s = Some (r, s') →
  self s' = set_previous_hash (previous_hash (self s')) (self s).
Proof.
  revert iteration s. induction fuel as [|fuel IH]; intros iteration s;
    cbn [while_loop]; destruct (iteration <? max_iterations (self s))%Z;
    try done; try (intros [= _ <-]; by destruct (self s)).
  destruct (loop_body engine prompt iteration s) as [rb s1] eqn:Hbody.
  apply loop_body_frame in Hbody as (Hself & _).
  destruct rb as [[|iteration']|e]; try (by intros [= _ <-]).
  intros Hrest. apply IH in Hrest.
  by apply (set_previous_hash_twice (self s) (self s1)).
Qed.

(** X16.  During a run the orchestrator changes in [previous_hash] at
    most: the paths, the bound, the stop token, the defaults and the
    read-only files at the end are those at the start. *)
Theorem run_keeps_configuration s r s' :
  run engine s = Some (r, s') →
  self s' = set_previous_hash (previous_hash (self s')) (self s).
Proof.
  unfold run, run_loop.
  destruct (run_setup engine s) as [[prompt|e] s1] eqn:Hsetup;
    apply run_setup_frame in Hsetup as [Hself _].
  - intros Hloop. apply while_loop_self in Hloop. by rewrite <- Hself.
  - intros [= _ <-]. rewrite Hself. by destruct (self s).
Qed.

Section World_invariant.
Variable P : World Ext → Prop.
Hypothesis engine_keeps : ∀ c w, P w → P (snd (engine c w)).

Lemma create_coder_world s mode r s' :
  create_coder engine mode s = (r, s') → P (world s) → P (world s').
Proof.
  unfold create_coder. unfold_monad.
  destruct (load_config s) as [[config|e] s1] eqn:Hload;
    apply load_config_pure in Hload; subst s1; [|by intros [= _ <-]].
  repeat (first [step_engine engine | step_getitem]);
    intros [= _ <-]; cbn [world]; chain_worlds engine engine_keeps; eauto.
Qed.

Lemma coder_run_world s coder with_message r s' :
  coder_run engine coder with_message s = (r, s') →
  P (world s) → P (world s').
Proof.
  unfold coder_run. unfold_monad. step_engine engine;
    intros [= _ <-]; cbn [world]; chain_worlds engine engine_keeps; eauto.
Qed.

Lemma loop_body_world s prompt iteration r s' :
  loop_body engine prompt iteration s = (r, s') → P (world s) → P (world s').
Proof.
  rewrite loop_body_check.
  destruct (is_complete s) as [rc s1] eqn:Hcheck.
  apply is_complete_frame in Hcheck as (Hworld1 & _).
  destruct rc as [[|]|e]; try (intros [= _ <-]; by rewrite Hworld1).
  destruct (create_coder engine "code" _) as [[coder|e] s2] eqn:Hcreate;
    pose proof (create_coder_world _ _ _ _ Hcreate) as Hw2;
    cbn [printed world] in Hw2; rewrite Hworld1 in Hw2.
  - destruct (coder_run engine coder prompt s2) as [[[]|e] s3] eqn:Hrun;
      pose proof (coder_run_world _ _ _ _ _ Hrun) as Hw3.
    + intros [= _ <-]. eauto.
    + destruct (is_Exception e); intros [= _ <-]; cbn [printed world]; eauto.
  - destruct (is_Exception e); intros [= _ <-]; cbn [printed world]; eauto.
Qed.

Lemma while_loop_world fuel prompt iteration s r s' :
  while_loop engine fuel prompt iteration s = Some (r, s') →
  P (world s) → P (world s').
Proof.
  revert iteration s. induction fuel as [|fuel IH]; intros iteration s;
    cbn [while_loop]; destruct (iteration <? max_iterations (self s))%Z;
    try done; try by intros [= _ <-].
  destruct (loop_body engine prompt iteration s) as [rb s1] eqn:Hbody.
  pose proof (loop_body_world _ _ _ _ _ Hbody) as Hw1.
  destruct rb as [[|iteration']|e]; try (intros [= _ <-]; by eauto).
  intros Hrest HP. apply (IH _ _ Hrest). eauto.
Qed.

Lemma run_setup_world s r s' :
  run_setup engine s = (r, s') → P (world s) → P (world s').
Proof.
  rewrite run_setup_unfold.
  destruct (read_prompt_file _ s) as [r1 s1] eqn:Hread1.
  apply read_prompt_file_frame in Hread1 as (_ & Hworld1 & _).
  destruct r1 as [requirements|e]; [|intros [= _ <-]; by rewrite Hworld1].
  destruct (negb (str_truthy requirements));
    [intros [= _ <-]; by rewrite Hworld1|].
  destruct (create_coder engine "architect" s1) as [[coder|e] s2] eqn:Hcreate;
    pose proof (create_coder_world _ _ _ _ Hcreate) as Hw2;
    rewrite Hworld1 in Hw2; [|intros [= _ <-]; by eauto].
  destruct (coder_run engine coder _ s2) as [[[]|e] s3] eqn:Hrun;
    pose proof (coder_run_world _ _ _ _ _ Hrun) as Hw3;
    [|intros [= _ <-]; by eauto].
  destruct (read_prompt_file _ s3) as [r4 s4] eqn:Hread2.
  apply read_prompt_file_frame in Hread2 as (_ & Hworld4 & _).
  destruct r4 as [continuation_prompt|e];
    [destruct (negb (str_truthy continuation_prompt))|];
    intros [= _ <-] HP; rewrite Hworld4; eauto.
Qed.

(** X17.  The script itself writes nothing: whatever the engine keeps
    true of the world, a run keeps true.  In particular, if no engine call
    changes the files, the override file or the head commit, a run leaves
    them as they were. *)
Theorem run_keeps_world_invariant s r s' :
  run engine s = Some (r, s') → P (world s) → P (world s').
Proof.
  unfold run, run_loop.
  destruct (run_setup engine s) as [[prompt|e] s1] eqn:Hsetup;
    pose proof (run_setup_world _ _ _ Hsetup) as Hw1.
  - intros Hloop HP. apply (while_loop_world _ _ _ _ _ _ Hloop). eauto.
  - intros [= _ <-]. eauto.
Qed.

End World_invariant.

(** *** Sessions and messages over a whole run *)

Lemma create_coder_no_delegation s mode r s' :
  create_coder engine mode s = (r, s') →
  ∃ evs, trace s' = trace s ++ evs ∧ count empty_delegation evs = 0%nat.
Proof.
  unfold create_coder. unfold_monad.
  destruct (load_config s) as [[config|e] s1] eqn:Hload;
    apply load_config_pure in Hload; subst s1.
  2: { intros [= _ <-]. exists []. by rewrite app_nil_r. }
  repeat (first [step_engine engine | step_getitem]);
    intros [= _ <-]; cbn [trace]; rewrite <- ?app_assoc;
    eexists; (split; [reflexivity|]); done.
Qed.

Lemma loop_body_balanced s prompt iteration r s' :
  loop_body engine prompt iteration s = (r, s') →
  ∃ evs, trace s' = trace s ++ evs ∧
    (∀ mode, sessions_created mode evs = sessions_run mode evs) ∧
    (prompt ≠ "" → count empty_delegation evs = 0%nat).
Proof.
  rewrite loop_body_check.
  destruct (is_complete s) as [rc s1] eqn:Hcheck.
  apply is_complete_frame in Hcheck as (_ & _ & evs1 & Htrace1 & Hcount1).
  assert (Hquiet : (∀ mode, sessions_created mode evs1 = sessions_run mode evs1)
                   ∧ count empty_delegation evs1 = 0%nat).
  { split; [intros mode; unfold sessions_created, sessions_run|];
      by rewrite !Hcount1. }
  destruct Hquiet as [Hbal1 Hmsg1].
  destruct rc as [[|]|e]; try (intros [= _ <-]; exists evs1; by eauto).
  destruct (create_coder engine "code" _) as [[coder|e] s2] eqn:Hcreate.
  - apply create_coder_ok in Hcreate as (Hmode & _ & Htrace2).
    cbn [printed trace] in Htrace2.
    destruct (coder_run engine coder prompt s2) as [rr s3] eqn:Hrun.
    apply coder_run_spec in Hrun as (_ & raised & Htrace3 & ->).
    destruct raised as [e|]; [destruct (is_Exception e)|];
      intros [= _ <-]; cbn [printed trace]; eexists;
      rewrite Htrace3, Htrace2, Htrace1, <- !app_assoc;
      (split; [reflexivity|]);
      (split;
       [ intros mode; unfold sessions_created, sessions_run;
         rewrite !count_app, !Hcount1 by done;
         cbn [count session_created session_run];
         by destruct (String.eqb (chat_mode coder) mode)
       | intros Hprompt; rewrite !count_app, Hmsg1;
         cbn [count empty_delegation];
         by apply String.eqb_neq in Hprompt as -> ]).
  - pose proof (create_coder_raise engine _ _ _ _ Hcreate)
      as (_ & evs2 & Htrace2 & Hcount2).
    apply create_coder_no_delegation in Hcreate as (evs2' & Htrace2' & Hempty2).
    cbn [printed trace] in Htrace2, Htrace2'.
    assert (evs2' = evs2) as ->
      by (rewrite Htrace2' in Htrace2; by apply app_inv_head in Htrace2).
    destruct (is_Exception e); intros [= _ <-]; cbn [printed trace];
      eexists; rewrite Htrace2, Htrace1, <- !app_assoc;
      (split; [reflexivity|]);
      (split;
       [ intros mode; destruct (Hcount2 mode) as [Hc2 Hr2];
         unfold sessions_created, sessions_run in *;
         by rewrite !count_app, !Hcount1, Hc2, Hr2
       | intros _; by rewrite !count_app, Hmsg1, Hempty2 ]).
Qed.

Lemma while_loop_balanced fuel prompt iteration s r s' :
  while_loop engine fuel prompt iteration s = Some (r, s') →
  ∃ evs, trace s' = trace s ++ evs ∧
    (∀ mode, sessions_created mode evs = sessions_run mode evs) ∧
    (prompt ≠ "" → count empty_delegation evs = 0%nat).
Proof.
  revert iteration s. induction fuel as [|fuel IH]; intros iteration s;
    cbn [while_loop]; destruct (iteration <? max_iterations (self s))%Z;
    try done;
    try (intros [= _ <-]; exists []; by rewrite app_nil_r).
  destruct (loop_body engine prompt iteration s) as [rb s1] eqn:Hbody.
  apply loop_body_balanced in Hbody as (evs1 & Htrace1 & Hbal1 & Hmsg1).
  destruct rb as [[|iteration']|e];
    try (intros [= _ <-]; exists evs1; by eauto).
  intros Hrest. apply IH in Hrest as (evs2 & Htrace2 & Hbal2 & Hmsg2).
  exists (evs1 ++ evs2). rewrite Htrace2, Htrace1, <- app_assoc.
  split; [done|]. split.
  - intros mode. unfold sessions_created, sessions_run in *.
    by rewrite !count_app, Hbal1, Hbal2.
  - intros Hprompt. by rewrite count_app, Hmsg1, Hmsg2.
Qed.

Lemma run_setup_balanced s r s' :
  run_setup engine s = (r, s') →
  (∀ prompt, r = Ret prompt → prompt ≠ "") ∧
  ∃ evs, trace s' = trace s ++ evs ∧
    (∀ mode, sessions_created mode evs = sessions_run mode evs) ∧
    count empty_delegation evs = 0%nat.
Proof.
  assert (Htruthy : ∀ text, negb (str_truthy text) = false →
                            prompt_text text ≠ "").
  { intros [text|]; cbn [str_truthy prompt_text from_option id negb];
      [|discriminate].
    rewrite negb_involutive. intros Hne. by apply String.eqb_neq. }
  assert (Hquiet : ∀ evs,
    (∀ p, (∀ line, p (Stdout line) = false) → count p evs = 0%nat) →
    (∀ mode, sessions_created mode evs = sessions_run mode evs)
    ∧ count empty_delegation evs = 0%nat).
  { intros evs Hcount.
    split; [intros mode; unfold sessions_created, sessions_run|];
      by rewrite !Hcount. }
  rewrite run_setup_unfold.
  destruct (read_prompt_file _ s) as [r1 s1] eqn:Hread1.
  apply read_prompt_file_frame in Hread1 as (_ & _ & evs1 & Htrace1 & Hcount1).
  destruct (Hquiet evs1 Hcount1) as [Hbal1 Hmsg1].
  destruct r1 as [requirements|e]; [|intros [= <- <-]; by eauto].
  destruct (negb (str_truthy requirements)) eqn:Hreq;
    [intros [= <- <-]; by eauto|].
  apply Htruthy, String.eqb_neq in Hreq.
  destruct (create_coder engine "architect" s1) as [[coder|e] s2] eqn:Hcreate.
  2: { pose proof (create_coder_raise engine _ _ _ _ Hcreate)
         as (_ & evs2 & Htrace2 & Hcount2).
       apply create_coder_no_delegation in Hcreate
         as (evs2' & Htrace2' & Hempty2).
       assert (evs2' = evs2) as ->
         by (rewrite Htrace2' in Htrace2; by apply app_inv_head in Htrace2).
       intros [= <- <-]. split; [done|]. exists (evs1 ++ evs2).
       rewrite Htrace2, Htrace1, <- app_assoc. split; [done|]. split.
       - intros mode. destruct (Hcount2 mode) as [Hc2 Hr2].
         unfold sessions_created, sessions_run in *.
         by rewrite !count_app, Hbal1, Hc2, Hr2.
       - by rewrite count_app, Hmsg1, Hempty2. }
  apply create_coder_ok in Hcreate as (_ & _ & Htrace2).
  destruct (coder_run engine coder _ s2) as [rr s3] eqn:Hrun.
  apply coder_run_spec in Hrun as (_ & raised & Htrace3 & ->).
  assert (Hpre : ∃ evs3, trace s3 = trace s ++ evs3 ∧
    (∀ mode, sessions_created mode evs3 = sessions_run mode evs3) ∧
    count empty_delegation evs3 = 0%nat).
  { eexists. rewrite Htrace3, Htrace2, Htrace1, <- !app_assoc.
    split; [reflexivity|]. split.
    - intros mode. unfold sessions_created, sessions_run.
      rewrite !count_app, !Hcount1 by done.
      cbn [count session_created session_run].
      by destruct (String.eqb (chat_mode coder) mode).
    - rewrite !count_app, Hmsg1. cbn [count empty_delegation].
      by rewrite Hreq. }
  destruct Hpre as (evs3 & Htrace3' & Hbal3 & Hmsg3).
  destruct raised as [e|]; [intros [= <- <-]; by eauto|].
  destruct (read_prompt_file _ s3) as [r4 s4] eqn:Hread2.
  apply read_prompt_file_frame in Hread2 as (_ & _ & evs4 & Htrace4 & Hcount4).
  destruct (Hquiet evs4 Hcount4) as [Hbal4 Hmsg4].
  assert (Hpost : ∃ evs, trace s4 = trace s ++ evs ∧
    (∀ mode, sessions_created mode evs = sessions_run mode evs) ∧
    count empty_delegation evs = 0%nat).
  { exists (evs3 ++ evs4). rewrite Htrace4, Htrace3', <- app_assoc.
    split; [done|]. split; [intros mode|];
      unfold sessions_created, sessions_run in *;
      by rewrite !count_app, ?Hbal3, ?Hbal4, ?Hmsg3, ?Hmsg4. }
  destruct r4 as [continuation_prompt|e]; [|by intros [= <- <-]].
  destruct (negb (str_truthy continuation_prompt)) eqn:Hcont;
    intros [= <- <-]; [done|].
  split; [|done]. intros prompt [= <-]. by apply Htruthy.
Qed.


(** X19.  [coder.run] is never called with an empty message: the
    architect's message is a requirements text that passed
    [if not requirements], and every "code" session gets a continuation
    prompt that passed [if not continuation_prompt]. *)
Theorem run_never_delegates_empty_message s r s' :
  run engine s = Some (r, s') →
  ∃ evs, trace s' = trace s ++ evs ∧ count empty_delegation evs = 0%nat.
Proof.
  unfold run, run_loop.
  destruct (run_setup engine s) as [rs s1] eqn:Hsetup.
  apply run_setup_balanced in Hsetup as (Hprompt & evs1 & Htrace1 & _ & Hmsg1).
  destruct rs as [prompt|e]; [|intros [= _ <-]; by eauto].
  intros Hloop.
  apply while_loop_balanced in Hloop as (evs2 & Htrace2 & _ & Hmsg2).
  exists (evs1 ++ evs2). rewrite Htrace2, Htrace1, <- app_assoc.
  split; [done|]. rewrite count_app, Hmsg1, Hmsg2; [done|].
  by apply Hprompt.
Qed.

(** *** Termination *)

Lemma while_loop_more_fuel fuel fuel' prompt iteration s outcome :
  while_loop engine fuel prompt iteration s = Some outcome →
  (fuel ≤ fuel')%nat →
  while_loop engine fuel' prompt iteration s = Some outcome.
Proof.
  revert fuel' iteration s.
  induction fuel as [|fuel IH]; intros fuel' iteration s;
    (destruct (Z.lt_ge_cases iteration (max_iterations (self s))) as [Hlt|Hge];
     [|rewrite !while_loop_exit by lia; done]).
  - cbn [while_loop]. apply Z.ltb_lt in Hlt. by rewrite Hlt.
  - intros Hloop Hle. destruct fuel' as [|fuel']; [lia|].
    rewrite while_loop_step in Hloop |- * by done.
    destruct (loop_body engine prompt iteration s) as [[[|iteration']|e] s1];
      try done.
    apply IH; [done | lia].
Qed.

(** X20.  [run] always ends, with a return or with an exception, and the
    loop needs no more than [max_iterations] passes to get there: allowing
    it more passes than that changes nothing. *)
Theorem run_terminates s :
  (∃ r s', run engine s = Some (r, s')) ∧
  ∀ prompt fuel,
    (Z.to_nat (max_iterations (self s)) ≤ fuel)%nat →
    while_loop engine fuel prompt 0 s = run_loop engine prompt s.
Proof.
  split; [apply run_total|]. intros prompt fuel Hfuel. unfold run_loop.
  destruct (while_loop_total engine (Z.to_nat (max_iterations (self s)))
              prompt 0 s) as (r & s' & Hloop); [lia|].
  rewrite Hloop. by apply (while_loop_more_fuel _ _ _ _ _ _ Hloop).
Qed.

End Further.

(** ** Further concrete runs *)

Module Further_witnesses.
Import Examples Cases.

(** X1 on an override file that holds a list. *)
Lemma load_config_rejects_non_mapping_witness :
  load_config (start 3 (world_of (files None None)
                          (Some (Ret (YSeq [YStr "auto_test"]))))) =
    (Raise (TypeError "'list' object is not a mapping"),
     start 3 (world_of (files None None)
                (Some (Ret (YSeq [YStr "auto_test"]))))).
Proof.
  apply (load_config_rejects_non_mapping
           (start 3 (world_of (files None None)
                       (Some (Ret (YSeq [YStr "auto_test"])))))
           (YSeq [YStr "auto_test"])).
  - reflexivity.
  - reflexivity.
  - discriminate.
Defined.

(** X2 on an empty override file, which loads as [None]. *)
Lemma load_config_falsy_document_witness :
  load_config (start 3 (world_of (files None None) (Some (Ret YNull)))) =
    (Ret default_base_config,
     start 3 (world_of (files None None) (Some (Ret YNull)))).
Proof.
  apply (load_config_falsy_document
           (start 3 (world_of (files None None) (Some (Ret YNull)))) YNull);
    reflexivity.
Defined.

(** X3 on the override file of [overrides]: the default key [auto_lint]
    is in the result, and the value of [auto_test] comes from the file. *)
Lemma load_config_entries_witness :
  let s := start 3 (world_of (files None None)
                      (Some (Ret (YMap overrides)))) in
  is_Some ((overrides ∪ default_base_config) !! "auto_lint") ∧
  (default_base_config !! "auto_test" = Some (YBool true) ∨
   ∃ m, user_conf (world s) = Some (Ret (YMap m)) ∧
        m !! "auto_test" = Some (YBool true)).
Proof.
  intros s.
  destruct (load_config_entries s (overrides ∪ default_base_config) s)
    as (_ & Hkeys & Hentries); [vm_compute; reflexivity|].
  split.
  - apply Hkeys. vm_compute. eauto.
  - apply Hentries. vm_compute. reflexivity.
Defined.

(** X4: the override [auto_test: true] reaches the session. *)
Lemma create_coder_session_from_config_witness :
  let s := start 3 (world_of (files None None)
                      (Some (Ret (YMap overrides)))) in
  let coder :=
    {| main_model := "gpt-4-turbo";
       io := io (session "code");
       fnames := [];
       read_only_fnames := read_only_fnames (session "code");
       auto_commits := YBool true;
       auto_lint := YBool true;
       auto_test := YBool true;
       stream := YBool false;
       chat_mode := "code" |} in
  ∃ config,
    load_config s = (Ret config, s) ∧
    config !! "auto_commits" = Some (YBool true) ∧
    config !! "auto_lint" = Some (YBool true) ∧
    config !! "auto_test" = Some (YBool true) ∧
    config !! "stream" = Some (YBool false) ∧
    main_model coder = "gpt-4-turbo" ∧
    fnames coder = [] ∧
    read_only_fnames coder = read_files (self s) ∧
    chat_mode coder = "code".
Proof.
  intros s coder.
  apply (create_coder_session_from_config (scripted committing) s "code"
           coder (after (create_coder (scripted committing) "code") s)).
  vm_compute. reflexivity.
Defined.

(** X5 with an engine that refuses "code" sessions: the exception is the
    last event. *)
Lemma create_coder_failure_origin_witness :
  let s := start 3 base_world in
  let e := OtherError "ValueError" "unknown edit format" in
  load_config s = (Raise e, s) ∨
  ∃ c evs, trace (after (create_coder (refusing "code") "code") s) =
             trace s ++ evs ++ [Called c (Some e)].
Proof.
  intros s e.
  apply (create_coder_failure_origin (refusing "code") s "code" e
           (after (create_coder (refusing "code") "code") s)).
  - vm_compute. eauto.
  - vm_compute. eauto.
  - vm_compute. eauto.
  - vm_compute. eauto.
  - vm_compute. reflexivity.
Defined.

(** X6 after an architect run that committed. *)
Lemma is_complete_twice_witness :
  let s := after (run_setup (scripted committing)) (start 3 base_world) in
  is_complete (after is_complete s) =
    (Ret true,
     printed "Not modified. Finalizing session..." (after is_complete s)).
Proof.
  intros s. apply (is_complete_twice s (after is_complete s)).
  vm_compute. reflexivity.
Defined.

(** X7 with [STOP_TOKEN] set to the empty string. *)
Lemma is_complete_empty_stop_token_witness :
  let s :=
    mkState
      (mkOrchestrator "requirements.txt" "continuation.txt"
         "commit_prompt.txt" 3 "" "commit-0" default_base_config [])
      (world_with ".aider.chat.history.md" (File "# aider chat started"))
      [] in
  is_complete s = (Ret true, s).
Proof.
  intros s. apply (is_complete_empty_stop_token s "# aider chat started");
    reflexivity.
Defined.

(** X8 with a chat-history file that may not be read. *)
Lemma check_failure_leaves_loop_witness :
  let s := start 3 (world_with ".aider.chat.history.md"
                      (Unreadable permission_denied)) in
  is_complete s = (Raise permission_denied, s) ∧
  while_loop (scripted committing) 3 "Continue." 0 s =
    Some (Raise permission_denied, s).
Proof.
  intros s.
  destruct (check_failure_leaves_loop (scripted committing) s
              permission_denied) as [Hcheck Hloop].
  - left. vm_compute. reflexivity.
  - split; [exact Hcheck|]. apply (Hloop 2%nat "Continue." 0%Z). reflexivity.
Defined.

(** X9 with an engine whose runs after the architect's commit nothing:
    the first iteration is the last. *)
Lemma idle_iteration_ends_loop_witness :
  let engine := scripted stalling in
  let s := after (run_setup engine) (start 3 base_world) in
  let s2 := after (loop_body engine "Continue." 0) s in
  while_loop engine 3 "Continue." 0 s =
    Some (Ret tt, printed "Not modified. Finalizing session..." s2).
Proof.
  intros engine s s2.
  apply (idle_iteration_ends_loop engine 1 "Continue." 0 s
           (after is_complete s) s2).
  - reflexivity.
  - vm_compute. reflexivity.
  - run_delegation engine.
  - vm_compute. reflexivity.
  - vm_compute. exact I.
Defined.

(** X10 with an engine that never commits. *)
Lemma no_commit_no_iteration_witness :
  let engine := scripted idle in
  run engine (start 3 base_world) =
    Some (Ret tt,
          printed "Not modified. Finalizing session..."
            (after (run_setup engine) (start 3 base_world))).
Proof.
  intros engine.
  apply (no_commit_no_iteration engine "requirements.txt" "continuation.txt"
           "commit_prompt.txt" 3 "DONE" base_world (orchestrator 3) []
           "Continue.").
  - reflexivity.
  - vm_compute. reflexivity.
  - vm_compute. reflexivity.
  - vm_compute. exact I.
  - lia.
Defined.

(** X11 with [MAX_ITERATIONS] set to 0. *)
Lemma no_iterations_allowed_witness :
  let engine := scripted committing in
  run engine (start 0 base_world) =
    Some (Ret tt, after (run_setup engine) (start 0 base_world)).
Proof.
  intros engine.
  apply (no_iterations_allowed engine (start 0 base_world) "Continue.").
  - vm_compute. reflexivity.
  - vm_compute. discriminate.
Defined.


(** X13 with an engine that refuses "code" sessions. *)
Lemma session_creation_failure_exits_witness :
  let engine := refusing "code" in
  let s := after (run_setup engine) (start 3 base_world) in
  let s2 :=
    after (create_coder engine "code")
      (printed "Starting iteration 1" (after is_complete s)) in
  while_loop engine 3 "Continue." 0 s =
    Some (Raise (SystemExit 1),
          printed "Error during iteration 1: unknown edit format" s2).
Proof.
  intros engine s s2.
  apply (session_creation_failure_exits engine 2 "Continue." 0 s
           (after is_complete s)
           (OtherError "ValueError" "unknown edit format") s2).
  - reflexivity.
  - vm_compute. reflexivity.
  - vm_compute. reflexivity.
  - reflexivity.
Defined.

(** X14 with a requirements file that may not be read. *)
Lemma unreadable_prompt_propagates_witness :
  let s := start 3 (world_with "requirements.txt"
                      (Unreadable permission_denied)) in
  run (scripted committing) s = Some (Raise permission_denied, s).
Proof.
  intros s.
  apply (unreadable_prompt_propagates (scripted committing) s
           permission_denied).
  - vm_compute. reflexivity.
  - discriminate.
Defined.

(** X15 with an engine that refuses the "architect" session, and with one
    whose first run raises. *)
Lemma architect_failure_propagates_witness :
  let s := start 3 base_world in
  run (refusing "architect") s =
    Some (Raise (OtherError "ValueError" "unknown edit format"),
          after (create_coder (refusing "architect") "architect") s) ∧
  run (scripted (failing_at 1)) s =
    Some (Raise (OtherError "RuntimeError" "model unavailable"),
          after (coder_run (scripted (failing_at 1)) (session "architect")
                   "Build a parser.")
            (after (create_coder (scripted (failing_at 1)) "architect") s)).
Proof.
  intros s. split.
  - apply (proj1 (architect_failure_propagates (refusing "architect") s
                    "Build a parser."
                    (OtherError "ValueError" "unknown edit format")
                    eq_refl ltac:(discriminate))).
    vm_compute. reflexivity.
  - apply (proj2 (architect_failure_propagates (scripted (failing_at 1)) s
                    "Build a parser."
                    (OtherError "RuntimeError" "model unavailable")
                    eq_refl ltac:(discriminate))
             (session "architect")
             (after (create_coder (scripted (failing_at 1)) "architect") s)).
    + vm_compute. reflexivity.
    + vm_compute. reflexivity.
Defined.

(** X16 on a run of three iterations: the orchestrator at the end is the
    one at the start, with the last head it saw. *)
Lemma run_keeps_configuration_witness :
  let outcome := run (scripted committing) (start 3 base_world) in
  self (state_of (start 3 base_world) outcome) =
    set_previous_hash "commit-3" (orchestrator 3).
Proof.
  intros outcome.
  rewrite (run_keeps_configuration (scripted committing) (start 3 base_world)
             (result_of outcome) (state_of (start 3 base_world) outcome)).
  - vm_compute. reflexivity.
  - vm_compute. reflexivity.
Defined.

(** X17: the scripted engine never creates an override file, so there is
    none after the run. *)
Lemma run_keeps_world_invariant_witness :
  let outcome := run (scripted committing) (start 3 base_world) in
  user_conf (world (state_of (start 3 base_world) outcome)) = None.
Proof.
  intros outcome.
  apply (run_keeps_world_invariant (scripted committing)
           (λ w, user_conf w = None)
           ltac:(intros [] w Hw; exact Hw)
           (start 3 base_world) (result_of outcome)).
  - vm_compute. reflexivity.
  - reflexivity.
Defined.


(** X19 on a run of three iterations. *)
Lemma run_never_delegates_empty_message_witness :
  let s := start 3 base_world in
  let outcome := run (scripted committing) s in
  ∃ evs, trace (state_of s outcome) = trace s ++ evs ∧
         count empty_delegation evs = 0%nat.
Proof.
  intros s outcome.
  apply (run_never_delegates_empty_message (scripted committing) s
           (result_of outcome)).
  vm_compute. reflexivity.
Defined.

(** X20: a run with room for a hundred passes and one with room for
    three end alike. *)
Lemma run_terminates_witness :
  let s := after (run_setup (scripted committing)) (start 3 base_world) in
  while_loop (scripted committing) 100 "Continue." 0 s =
    run_loop (scripted committing) "Continue." s.
Proof.
  intros s.
  apply (proj2 (run_terminates (scripted committing) s) "Continue." 100%nat).
  vm_compute. lia.
Defined.

End Further_witnesses.
